(** * Shelly-Thermostat: the heating control loop and the boost store

    A shallow embedding of [shelly-local-backend/server.js]: the boost
    routes ([POST /rooms/:roomId/boost], [cancel-boost], [boost-status],
    [GET /rooms/boosted]) and [heatingControlLoop], with the two
    process-wide objects [activeBoosts] and [lastCommandedRadiatorState]
    threaded explicitly.  A run of the loop and a request are each taken as
    one step: what a request does to [activeBoosts] while a run is waiting
    for a device is not modelled. *)

From Stdlib Require Import ZArith Lia Bool Ascii String DecimalString.
From stdpp Require Import gmap strings list sorting.

(** ** JavaScript strings: relational comparison, [String(n)], [padStart] *)

Module JsString.

(** [a < b] on two strings compares code units left to right, a proper
    prefix being smaller; on the ASCII strings the server handles this is
    [String.compare]. *)
Definition lt (a b : string) : bool :=
  match String.compare a b with Lt => true | _ => false end.

(** [a >= b] is the negation of [a < b] (no NaN among strings). *)
Definition ge (a b : string) : bool := negb (lt a b).

(** [String(n)] for a non-negative integer. *)
Definition ofNat (n : nat) : string := NilEmpty.string_of_uint (Nat.to_uint n).

Fixpoint repeatChar (n : nat) (c : ascii) : string :=
  match n with
  | O => EmptyString
  | S k => String c (repeatChar k c)
  end.

(** [s.padStart(targetLength, c)] with a one-character filler. *)
Definition padStart (s : string) (targetLength : nat) (c : ascii) : string :=
  repeatChar (targetLength - String.length s) c +:+ s.

End JsString.

(** ** Data model *)

(** The two relay states the loop commands, ["on"] and ["off"]. *)
Inductive RelayState := on | off.

#[global] Instance RelayState_eq_dec : EqDecision RelayState.
Proof. solve_decision. Defined.

(** A time slot of a day's schedule.  [enabledRadiatorIds] is read as
    [activeSlot?.enabledRadiatorIds || []], so a missing array is the empty
    list; [slotTargetTempC] is [None] when the slot's [targetTempC] is
    [undefined]. *)
Record Slot (num : Type) := mkSlot {
  startTime : string;
  endTime : string;
  enabledRadiatorIds : list string;
  slotTargetTempC : option num
}.
Arguments mkSlot {num}.
Arguments startTime {num}.
Arguments endTime {num}.
Arguments enabledRadiatorIds {num}.
Arguments slotTargetTempC {num}.

(** What [new Date()] gives the room loop: [getDay()], [getHours()],
    [getMinutes()]. *)
Record LocalTime := mkLocalTime {
  getDay : nat;
  getHours : nat;
  getMinutes : nat
}.

Definition dayNames : list string :=
  ["sun"; "mon"; "tue"; "wed"; "thu"; "fri"; "sat"].

(** [dayOfWeek]: indexing the array of names ([None] is [undefined]). *)
Definition dayOfWeek (now : LocalTime) : option string := dayNames !! getDay now.

Definition pad2 (n : nat) : string := JsString.padStart (JsString.ofNat n) 2 "0"%char.

(** A wall-clock time as the stored slots and the loop write it, "HH:MM". *)
Definition hhmm (hours minutes : nat) : string :=
  pad2 hours +:+ ":" +:+ pad2 minutes.

(** [currentTime]: the template string built from [getHours()] and
    [getMinutes()]. *)
Definition currentTime (now : LocalTime) : string :=
  hhmm (getHours now) (getMinutes now).

(** ** Numbers

    Temperatures are JavaScript numbers.  The loop only subtracts, adds and
    compares them, so the model is stated over any carrier with these three
    operations whose [<] is transitive (it is on IEEE doubles, NaN
    included, since every comparison with NaN is false). *)
Class JsNumber (num : Type) := {
  num_lt : num -> num -> bool;
  num_add : num -> num -> num;
  num_sub : num -> num -> num;
  num_lt_trans : forall a b c,
    num_lt a b = true -> num_lt b c = true -> num_lt a c = true
}.

(** Integers, used for temperatures in tenths of a degree in the examples. *)
#[global, refine] Instance Z_JsNumber : JsNumber Z :=
  {| num_lt := Z.ltb; num_add := Z.add; num_sub := Z.sub |}.
Proof. intros a b c Hab Hbc. apply Z.ltb_lt in Hab, Hbc. apply Z.ltb_lt. lia. Defined.

(** ** Registries *)

(** An entry of [devices.json]; [btSensorId] is [None] when the key is absent. *)
Record Device := mkDevice {
  id : string;
  ip : string;
  relayIndex : nat;
  btSensorId : option nat
}.

(** [devices.find((d) => d.id === deviceId)] *)
Definition findDeviceById (devices : list Device) (deviceId : string) : option Device :=
  List.find (fun d => bool_decide (id d = deviceId)) devices.

(** An entry of [rooms.json].  [sensorDeviceId] and [schedule] are [None]
    when the stored value is [null]; the numeric fields are only read in
    thermostat mode. *)
Record Room (num : Type) := mkRoom {
  roomId : string;
  radiatorDeviceIds : list string;
  controlMode : string;
  sensorDeviceId : option string;
  targetTempC : num;
  hysteresisC : num;
  schedule : option (gmap string (list (Slot num)))
}.
Arguments mkRoom {num}.
Arguments roomId {num}.
Arguments radiatorDeviceIds {num}.
Arguments controlMode {num}.
Arguments sensorDeviceId {num}.
Arguments targetTempC {num}.
Arguments hysteresisC {num}.
Arguments schedule {num}.

(** An entry of [activeBoosts]; [until] is the [Date] as epoch milliseconds. *)
Record Boost := mkBoost {
  until : Z;
  radiatorIds : list string
}.

(** ** The outside world, as seen by one tick *)

(** Outcome of [axios.get(sensorUrl)]: the request throws, or it answers
    and [data?.value] is a number or [undefined]/[null]. *)
Inductive SensorReply (num : Type) :=
| FetchError
| SensorData (value : option num).
Arguments FetchError {num}.
Arguments SensorData {num}.

(** What a room's iteration reads from outside: its own [new Date()] and
    the sensor's answer for an address and sensor index. *)
Record RoomEnv (num : Type) := mkRoomEnv {
  clock : LocalTime;
  sensorGet : string -> nat -> SensorReply num
}.
Arguments mkRoomEnv {num}.
Arguments clock {num}.
Arguments sensorGet {num}.

(** One run of the loop: [Date.now()] at its start, the environment of the
    i-th room iteration, and whether [Switch.Set] on a device succeeds. *)
Record World (num : Type) := mkWorld {
  dateNow : Z;
  roomEnv : nat -> RoomEnv num;
  setRelay : Device -> bool -> bool
}.
Arguments mkWorld {num}.
Arguments dateNow {num}.
Arguments roomEnv {num}.
Arguments setRelay {num}.

(** What the dispatch phase does that is visible outside: the relay calls
    it issues and the two errors it logs. *)
Inductive Event :=
| DeviceNotFound (deviceId : string)
| SwitchSet (deviceId : string) (device : Device) (turnOn : bool)
| SetFailed (deviceId : string) (desiredState : RelayState).

#[global] Instance Device_eq_dec : EqDecision Device.
Proof. solve_decision. Defined.

#[global] Instance Event_eq_dec : EqDecision Event.
Proof. solve_decision. Defined.

(** ** A JavaScript object used as an ordered map ([commandsToSend]) *)

Module JsObject.

(** [o[k] = v]: an existing key keeps its place, a new one goes last. *)
Fixpoint set {V : Type} (o : list (string * V)) (k : string) (v : V)
  : list (string * V) :=
  match o with
  | [] => [(k, v)]
  | (k', v') :: rest =>
      if bool_decide (k' = k) then (k', v) :: rest else (k', v') :: set rest k v
  end.

(** [o[k]] *)
Fixpoint get {V : Type} (o : list (string * V)) (k : string) : option V :=
  match o with
  | [] => None
  | (k', v') :: rest => if bool_decide (k' = k) then Some v' else get rest k
  end.

Definition keys {V : Type} (o : list (string * V)) : list string := o.*1.

(** A key is an array index when it is the canonical decimal string of an
    integer below 2^32 - 1. *)
Definition arrayIndex (k : string) : option N :=
  match NilEmpty.uint_of_string k with
  | Some u =>
      let n := N.of_uint u in
      if bool_decide (NilEmpty.string_of_uint (N.to_uint n) = k)
         && (n <? 4294967295)%N
      then Some n else None
  | None => None
  end.

Definition indexLe {V : Type} (a b : N * (string * V)) : Prop := (a.1 ≤ b.1)%N.

#[global] Instance indexLe_dec {V : Type} (a b : N * (string * V)) :
  Decision (indexLe a b).
Proof. unfold indexLe. apply _. Defined.

(** The order in which [for (const k in o)] visits the own keys: array
    indices ascending, then the other keys in insertion order. *)
Definition forIn {V : Type} (o : list (string * V)) : list (string * V) :=
  let indexed := omap (fun kv => n ← arrayIndex kv.1; Some (n, kv)) o in
  let named := filter (fun kv => arrayIndex kv.1 = None) o in
  (merge_sort indexLe indexed).*2 ++ named.

End JsObject.

(** ** The heating control loop *)

Section ControlLoop.
Context {num : Type} {NUM : JsNumber num}.

(** The loop's test [currentTime >= slot.startTime && currentTime < slot.endTime]. *)
Definition slotMatches (cur : string) (slot : Slot num) : bool :=
  JsString.ge cur (startTime slot) && JsString.lt cur (endTime slot).

(** [for (const slot of todaysSchedule) { if (...) { activeSlot = slot; break; } }] *)
Fixpoint findActiveSlot (cur : string) (todaysSchedule : list (Slot num))
  : option (Slot num) :=
  match todaysSchedule with
  | [] => None
  | slot :: rest =>
      if slotMatches cur slot then Some slot else findActiveSlot cur rest
  end.

(** [room.schedule?.[dayOfWeek] || []] *)
Definition todaysSchedule (room : Room num) (now : LocalTime) : list (Slot num) :=
  default [] (sched ← schedule room; day ← dayOfWeek now; sched !! day).

Definition activeSlotOf (room : Room num) (now : LocalTime) : option (Slot num) :=
  findActiveSlot (currentTime now) (todaysSchedule room now).

(** [activeSlot?.enabledRadiatorIds || []] *)
Definition enabledIdsInSlot (activeSlot : option (Slot num)) : list string :=
  match activeSlot with
  | Some slot => enabledRadiatorIds slot
  | None => []
  end.

(** [room.radiatorDeviceIds.some(id => lastCommandedRadiatorState[id] === 'on')] *)
Definition lastAnyRadOn (lastCommandedRadiatorState : gmap string RelayState)
    (room : Room num) : bool :=
  existsb (fun rid => bool_decide (lastCommandedRadiatorState !! rid = Some on))
          (radiatorDeviceIds room).

(** The target in force: the slot's [targetTempC] when there is an active
    slot that defines one, else the room's. *)
Definition targetTemp (room : Room num) (activeSlot : option (Slot num)) : num :=
  match activeSlot with
  | Some slot =>
      match slotTargetTempC slot with
      | Some t => t
      | None => targetTempC room
      end
  | None => targetTempC room
  end.

(** The three-way comparison on a temperature that was read. *)
Definition thermostatDecision (lastCommandedRadiatorState : gmap string RelayState)
    (room : Room num) (activeSlot : option (Slot num)) (currentTemp : num) : bool :=
  let lowerBound := num_sub (targetTemp room activeSlot) (hysteresisC room) in
  let upperBound := num_add (targetTemp room activeSlot) (hysteresisC room) in
  if num_lt currentTemp lowerBound then true
  else if num_lt upperBound currentTemp then false
  else lastAnyRadOn lastCommandedRadiatorState room.

(** [heatingNeededByTemp] after the thermostat block: it starts [false]
    and is only assigned when the mode is ["thermostat"], the room names a
    sensor device, that device is registered with a [btSensorId], the
    request does not throw and the value is neither [undefined] nor
    [null]. *)
Definition heatingNeededByTemp (devices : list Device)
    (lastCommandedRadiatorState : gmap string RelayState)
    (env : RoomEnv num) (room : Room num) (activeSlot : option (Slot num)) : bool :=
  if bool_decide (controlMode room = "thermostat") then
    match sensorDeviceId room with
    | Some sid =>
        if bool_decide (sid = EmptyString) then false
        else
          match findDeviceById devices sid with
          | Some sensorDevice =>
              match btSensorId sensorDevice with
              | Some bt =>
                  match sensorGet env (ip sensorDevice) bt with
                  | SensorData (Some currentTemp) =>
                      thermostatDecision lastCommandedRadiatorState room
                                         activeSlot currentTemp
                  | SensorData None => false
                  | FetchError => false
                  end
              | None => false
              end
          | None => false
          end
    | None => false
    end
  else false.

(** [activeBoost && activeBoost.radiatorIds.includes(radiatorId)] *)
Definition isRadiatorBoosted (activeBoost : option Boost) (radiatorId : string) : bool :=
  match activeBoost with
  | Some boost => bool_decide (radiatorId ∈ radiatorIds boost)
  | None => false
  end.

(** The body of the loop over [room.radiatorDeviceIds]. *)
Definition desiredRadiatorState (room : Room num) (activeBoost : option Boost)
    (enabledIds : list string) (heatingNeeded : bool) (radiatorId : string)
  : RelayState :=
  if isRadiatorBoosted activeBoost radiatorId then on
  else
    let isEnabledBySchedule := bool_decide (radiatorId ∈ enabledIds) in
    if bool_decide (controlMode room = "thermostat") then
      if isEnabledBySchedule && heatingNeeded then on else off
    else if bool_decide (controlMode room = "schedule") then
      if isEnabledBySchedule then on else off
    else off.

(** The state one room's iteration wants for one of its radiators. *)
Definition roomDesired (devices : list Device) (activeBoosts : gmap string Boost)
    (lastCommandedRadiatorState : gmap string RelayState)
    (env : RoomEnv num) (room : Room num) (radiatorId : string) : RelayState :=
  let activeSlot := activeSlotOf room (clock env) in
  desiredRadiatorState room (activeBoosts !! roomId room)
    (enabledIdsInSlot activeSlot)
    (heatingNeededByTemp devices lastCommandedRadiatorState env room activeSlot)
    radiatorId.

(** The assignments [commandsToSend[radiatorId] = desiredRadiatorState] one
    room's iteration makes, in order.  On records of these types nothing
    in the [try] block throws, so the [catch] branch is not taken. *)
Definition processRoom (devices : list Device) (activeBoosts : gmap string Boost)
    (lastCommandedRadiatorState : gmap string RelayState)
    (env : RoomEnv num) (room : Room num) : list (string * RelayState) :=
  map (fun rid => (rid, roomDesired devices activeBoosts
                          lastCommandedRadiatorState env room rid))
      (radiatorDeviceIds room).

Definition assignAll (commandsToSend : list (string * RelayState))
    (assignments : list (string * RelayState)) : list (string * RelayState) :=
  fold_left (fun o kv => JsObject.set o kv.1 kv.2) assignments commandsToSend.

(** [for (const room of rooms)], the i-th iteration reading [envs i]. *)
Fixpoint planRooms (devices : list Device) (activeBoosts : gmap string Boost)
    (lastCommandedRadiatorState : gmap string RelayState)
    (envs : nat -> RoomEnv num) (i : nat) (rooms : list (Room num))
    (commandsToSend : list (string * RelayState)) : list (string * RelayState) :=
  match rooms with
  | [] => commandsToSend
  | room :: rest =>
      planRooms devices activeBoosts lastCommandedRadiatorState envs (S i) rest
        (assignAll commandsToSend
           (processRoom devices activeBoosts lastCommandedRadiatorState (envs i) room))
  end.

(** The clean-up at the top of the loop: every entry with [until <= now]
    is deleted. *)
Definition pruneBoosts (now : Z) (activeBoosts : gmap string Boost) : gmap string Boost :=
  filter (fun kv => ¬ (until kv.2 ≤ now)%Z) activeBoosts.

(** One iteration of [for (const deviceId in commandsToSend)]. *)
Definition dispatchOne (devices : list Device) (relay : Device -> bool -> bool)
    (lastCommandedRadiatorState : gmap string RelayState)
    (deviceId : string) (desiredState : RelayState)
  : gmap string RelayState * list Event :=
  match findDeviceById devices deviceId with
  | None => (lastCommandedRadiatorState, [DeviceNotFound deviceId])
  | Some device =>
      if bool_decide (lastCommandedRadiatorState !! deviceId ≠ Some desiredState) then
        let turnOn := bool_decide (desiredState = on) in
        if relay device turnOn then
          (<[deviceId := desiredState]> lastCommandedRadiatorState,
           [SwitchSet deviceId device turnOn])
        else
          (lastCommandedRadiatorState,
           [SwitchSet deviceId device turnOn; SetFailed deviceId desiredState])
      else (lastCommandedRadiatorState, [])
  end.

(** The dispatch loop over the enumerated commands; it returns the cache
    and the events in the order they happen. *)
Fixpoint dispatch (devices : list Device) (relay : Device -> bool -> bool)
    (commands : list (string * RelayState))
    (lastCommandedRadiatorState : gmap string RelayState)
  : gmap string RelayState * list Event :=
  match commands with
  | [] => (lastCommandedRadiatorState, [])
  | (deviceId, desiredState) :: rest =>
      let '(cache1, ev1) :=
        dispatchOne devices relay lastCommandedRadiatorState deviceId desiredState in
      let '(cache2, ev2) := dispatch devices relay rest cache1 in
      (cache2, ev1 ++ ev2)
  end.

(** The process-wide state the loop reads and writes. *)
Record LoopState := mkLoopState {
  activeBoosts : gmap string Boost;
  lastCommandedRadiatorState : gmap string RelayState
}.

(** The commands a run plans: prune, then the room loop. *)
Definition plannedCommands (devices : list Device) (rooms : list (Room num))
    (w : World num) (st : LoopState) : list (string * RelayState) :=
  planRooms devices (pruneBoosts (dateNow w) (activeBoosts st))
    (lastCommandedRadiatorState st) (roomEnv w) 0 rooms [].

(** [heatingControlLoop]: the new state and the dispatch events. *)
Definition heatingControlLoop (devices : list Device) (rooms : list (Room num))
    (w : World num) (st : LoopState) : LoopState * list Event :=
  let boosts := pruneBoosts (dateNow w) (activeBoosts st) in
  let commandsToSend := plannedCommands devices rooms w st in
  let '(cache, events) :=
    dispatch devices (setRelay w) (JsObject.forIn commandsToSend)
             (lastCommandedRadiatorState st) in
  (mkLoopState boosts cache, events).

End ControlLoop.

(** ** The boost routes *)

(** A response: [res.json(body)] or [res.status(code).json({ message })]. *)
Inductive Reply (A : Type) :=
| Json (body : A)
| Status (code : nat) (message : string).
Arguments Json {A}.
Arguments Status {A}.

(** Body of a successful [POST /rooms/:roomId/boost]. *)
Record BoostStarted := mkBoostStarted {
  startedRoomId : string;
  boostedRadiators : list string;
  boostUntil : Z;
  startedRemainingMinutes : Z
}.

(** Body of [GET /rooms/:roomId/boost-status]. *)
Inductive BoostStatus :=
| NotBoosted
| Boosted (statusUntil : Z) (statusRadiatorIds : list string) (remainingMinutes : Z).

(** [Math.ceil(ms / (60 * 1000))] on integers. *)
Definition ceilMinutes (ms : Z) : Z := (- ((- ms) / 60000))%Z.

(** A request that reaches the boost store, or a run of the control loop. *)
Inductive StoreCall (num : Type) :=
| PostBoost (rooms : list (Room num)) (rid : string)
            (durationMinutes : option Z) (requested : option (list string))
| PostCancelBoost (rid : string)
| GetBoostStatus (rid : string)
| GetBoosted
| LoopRun.
Arguments PostBoost {num}.
Arguments PostCancelBoost {num}.
Arguments GetBoostStatus {num}.
Arguments GetBoosted {num}.
Arguments LoopRun {num}.

Section BoostRoutes.
Context {num : Type}.

(** [POST /rooms/:roomId/boost].  [durationMinutes] is [None] when the body
    has none, [requested] is [None] when [radiatorIds] is not an array;
    [now] is [Date.now()].  Durations are whole minutes. *)
Definition startBoost (rooms : list (Room num)) (now : Z)
    (boosts : gmap string Boost) (rid : string)
    (durationMinutes : option Z) (requested : option (list string))
  : Reply BoostStarted * gmap string Boost :=
  match durationMinutes with
  | None => (Status 400 "Valid durationMinutes is required", boosts)
  | Some minutes =>
      if bool_decide (minutes = 0 ∨ minutes ≤ 0)%Z then
        (Status 400 "Valid durationMinutes is required", boosts)
      else
        match List.find (fun r => bool_decide (roomId r = rid)) rooms with
        | None => (Status 404 "Room not found", boosts)
        | Some room =>
            let resolved :=
              match requested with
              | Some ((_ :: _) as ids) =>
                  let kept := List.filter
                                (fun i => bool_decide (i ∈ radiatorDeviceIds room)) ids in
                  if bool_decide (length kept = 0) then None else Some kept
              | _ => Some (radiatorDeviceIds room)
              end in
            match resolved with
            | None =>
                (Status 400 "None of the specified radiators belong to this room", boosts)
            | Some boosted =>
                let boostUntil := (now + minutes * 60 * 1000)%Z in
                (Json (mkBoostStarted rid boosted boostUntil minutes),
                 <[rid := mkBoost boostUntil boosted]> boosts)
            end
        end
  end.

(** [POST /rooms/:roomId/cancel-boost] *)
Definition cancelBoost (boosts : gmap string Boost) (rid : string)
  : Reply string * gmap string Boost :=
  match boosts !! rid with
  | None => (Status 404 "No active boost found for this room", boosts)
  | Some _ => (Json "Boost cancelled successfully", delete rid boosts)
  end.

(** [GET /rooms/:roomId/boost-status] *)
Definition boostStatus (now : Z) (boosts : gmap string Boost) (rid : string)
  : BoostStatus * gmap string Boost :=
  match boosts !! rid with
  | None => (NotBoosted, boosts)
  | Some boost =>
      let remainingMs := (until boost - now)%Z in
      if bool_decide (remainingMs ≤ 0)%Z then (NotBoosted, delete rid boosts)
      else (Boosted (until boost) (radiatorIds boost) (ceilMinutes remainingMs), boosts)
  end.

(** [GET /rooms/boosted]: the entries with [until > now] are reported, the
    others deleted. *)
Definition boostedRooms (now : Z) (boosts : gmap string Boost)
  : gmap string BoostStatus * gmap string Boost :=
  let live := filter (fun kv => (until kv.2 > now)%Z) boosts in
  ((fun b => Boosted (until b) (radiatorIds b) (ceilMinutes (until b - now))) <$> live,
   live).

(** The boost store after one call made at time [now]. *)
Definition storeStep (boosts : gmap string Boost) (c : Z * StoreCall num)
  : gmap string Boost :=
  match c.2 with
  | PostBoost rooms rid minutes requested =>
      (startBoost rooms c.1 boosts rid minutes requested).2
  | PostCancelBoost rid => (cancelBoost boosts rid).2
  | GetBoostStatus rid => (boostStatus c.1 boosts rid).2
  | GetBoosted => (boostedRooms c.1 boosts).2
  | LoopRun => pruneBoosts c.1 boosts
  end.

Definition storeRun (boosts : gmap string Boost) (calls : list (Z * StoreCall num))
  : gmap string Boost :=
  fold_left storeStep calls boosts.

(** A call that may create a boost for room [rid]. *)
Definition startsBoostFor (rid : string) (c : Z * StoreCall num) : Prop :=
  match c.2 with
  | PostBoost _ rid' _ _ => rid' = rid
  | _ => False
  end.

End BoostRoutes.

(** ** Vocabulary of the properties *)

(** The ways a thermostat room can fail to obtain a temperature: no sensor
    device named (or the empty id), the named device not registered, the
    device registered without a [btSensorId], the request failing, or an
    answer without a usable value. *)
Inductive SensorUnavailable {num : Type} (devices : list Device)
    (env : RoomEnv num) (room : Room num) : Prop :=
| NoSensorConfigured :
    sensorDeviceId room = None \/ sensorDeviceId room = Some EmptyString ->
    SensorUnavailable devices env room
| SensorDeviceMissing (sid : string) :
    sensorDeviceId room = Some sid ->
    findDeviceById devices sid = None ->
    SensorUnavailable devices env room
| SensorIndexMissing (sid : string) (dev : Device) :
    sensorDeviceId room = Some sid ->
    findDeviceById devices sid = Some dev ->
    btSensorId dev = None ->
    SensorUnavailable devices env room
| SensorFetchFailed (sid : string) (dev : Device) (bt : nat) :
    sensorDeviceId room = Some sid ->
    findDeviceById devices sid = Some dev ->
    btSensorId dev = Some bt ->
    sensorGet env (ip dev) bt = FetchError ->
    SensorUnavailable devices env room
| SensorValueUnreadable (sid : string) (dev : Device) (bt : nat) :
    sensorDeviceId room = Some sid ->
    findDeviceById devices sid = Some dev ->
    btSensorId dev = Some bt ->
    sensorGet env (ip dev) bt = SensorData None ->
    SensorUnavailable devices env room.

(** The device id an event is about. *)
Definition eventDevice (e : Event) : string :=
  match e with
  | DeviceNotFound d => d
  | SwitchSet d _ _ => d
  | SetFailed d _ => d
  end.

Definition aboutDevice (deviceId : string) (e : Event) : bool :=
  bool_decide (eventDevice e = deviceId).

(** Is this event a [Switch.Set] request for the device id? *)
Definition isSwitchSetFor (deviceId : string) (e : Event) : bool :=
  match e with
  | SwitchSet d _ _ => bool_decide (d = deviceId)
  | _ => false
  end.

(** The [Switch.Set] requests issued for a device id. *)
Definition relayCalls (deviceId : string) (events : list Event) : list Event :=
  List.filter (isSwitchSetFor deviceId) events.

(** ** Sample configurations *)

Module Sample.

(** A Monday, at the given time. *)
Definition monday (hours minutes : nat) : LocalTime := mkLocalTime 1 hours minutes.

(** A sensor whose request fails, and one that reads a temperature. *)
Definition silent : string -> nat -> SensorReply Z := fun _ _ => FetchError.

Definition reads (tenths : Z) : string -> nat -> SensorReply Z :=
  fun _ _ => SensorData (Some tenths).

Definition relayA : Device := mkDevice "a" "192.168.0.21" 0 None.
Definition relayB : Device := mkDevice "b" "192.168.0.22" 0 None.
Definition relayC : Device := mkDevice "c" "192.168.0.23" 0 (Some 200).
Definition devices : list Device := [relayA; relayB; relayC].

(** Room r1: schedule mode, radiators a and b, Monday 09:00-17:00 enabling a. *)
Definition r1 : Room Z :=
  mkRoom "r1" ["a"; "b"] "schedule" None 0%Z 0%Z
         (Some {[ "mon" := [mkSlot "09:00" "17:00" ["a"] None] ]}).

(** A schedule-mode room whose Monday slots overlap: the first enables a
    only, the second, stored after it, enables b. *)
Definition overlapping : Room Z :=
  mkRoom "hall" ["a"; "b"] "schedule" None 0%Z 0%Z
         (Some {[ "mon" := [mkSlot "09:00" "17:00" ["a"] None;
                            mkSlot "10:00" "12:00" ["b"] None] ]}).

(** Room r2: thermostat mode, target 20.0, hysteresis 1.0 (in tenths),
    radiator c, which also carries the sensor; the slot enables c all day. *)
Definition r2 : Room Z :=
  mkRoom "r2" ["c"] "thermostat" (Some "c") 200%Z 10%Z
         (Some {[ "mon" := [mkSlot "00:00" "23:59" ["c"] None] ]}).

(** A room that lists a radiator id that is in no registry. *)
Definition orphaned : Room Z :=
  mkRoom "attic" ["ghost"] "schedule" None 0%Z 0%Z
         (Some {[ "mon" := [mkSlot "09:00" "17:00" ["ghost"] None] ]}).

End Sample.

(** ** The registry routes *)

(** A response with its status code: [res.status(code).json(body)] (200
    for a bare [res.json]), or [res.status(code).json({ message })]. *)
Inductive Answer (A : Type) :=
| Answered (code : nat) (body : A)
| Refused (code : nat) (message : string).
Arguments Answered {A}.
Arguments Refused {A}.

(** A field of a request body that the routes test by type: [undefined],
    [null], a value of another type, or a value of the expected type. *)
Inductive Field (A : Type) :=
| Undefined
| Null
| Mistyped
| Given (a : A).
Arguments Undefined {A}.
Arguments Null {A}.
Arguments Mistyped {A}.
Arguments Given {A}.

(** An entry of [devices.json] with its display name. *)
Record DeviceEntry := mkDeviceEntry {
  deviceName : string;
  device : Device
}.

(** Body of [POST /devices]; the text fields are strings when present,
    numbers are integers, sensor indexes are not negative. *)
Record DeviceBody := mkDeviceBody {
  bodyId : option string;
  bodyName : option string;
  bodyIp : option string;
  bodyRelayIndex : Field Z;
  bodyBtSensorId : Field nat
}.

(** Body of [PUT /devices/:id]. *)
Record DeviceUpdate := mkDeviceUpdate {
  updateName : option string;
  updateIp : option string;
  updateRelayIndex : Field Z;
  updateBtSensorId : Field nat
}.

(** The registry as [findDeviceById] sees it. *)
Definition registered (devices : list DeviceEntry) : list Device := device <$> devices.

(** [GET /devices/:id] *)
Definition getDevice (devices : list DeviceEntry) (deviceId : string)
  : Answer DeviceEntry :=
  match List.find (fun d => bool_decide (id (device d) = deviceId)) devices with
  | None => Refused 404 "Device not found"
  | Some d => Answered 200 d
  end.

(** [POST /devices] *)
Definition postDevice (devices : list DeviceEntry) (body : DeviceBody)
  : Answer DeviceEntry * list DeviceEntry :=
  match bodyId body, bodyName body, bodyIp body, bodyRelayIndex body with
  | Some i, Some n, Some a, (Null | Mistyped | Given _) as r =>
      match r with
      | Given relay =>
          if bool_decide (relay < 0)%Z then (Refused 400 "Invalid relayIndex.", devices)
          else
            match bodyBtSensorId body with
            | Null | Mistyped => (Refused 400 "Invalid btSensorId.", devices)
            | (Undefined | Given _) as bt =>
                if existsb (fun d => bool_decide (id (device d) = i)) devices then
                  (Refused 409 ("Device with id '" +:+ i +:+ "' already exists"), devices)
                else
                  let newDevice :=
                    mkDeviceEntry n
                      (mkDevice i a (Z.to_nat relay)
                         (match bt with Given b => Some b | _ => None end)) in
                  (Answered 201 newDevice, devices ++ [newDevice])
            end
      | _ => (Refused 400 "Invalid relayIndex.", devices)
      end
  | _, _, _, _ =>
      (Refused 400 "Missing required fields: id, name, ip, relayIndex", devices)
  end.

(** [PUT /devices/:id] *)
Definition putDevice (devices : list DeviceEntry) (deviceId : string)
    (body : DeviceUpdate) : Answer DeviceEntry * list DeviceEntry :=
  match updateRelayIndex body with
  | Null | Mistyped => (Refused 400 "Invalid relayIndex.", devices)
  | (Undefined | Given _) as r =>
      if bool_decide (match r with Given relay => (relay < 0)%Z | _ => False end) then
        (Refused 400 "Invalid relayIndex.", devices)
      else
        match updateBtSensorId body with
        | Mistyped =>
            (Refused 400 "Invalid btSensorId. Must be a number or null.", devices)
        | bt =>
            match list_find (fun d => id (device d) = deviceId) devices with
            | None => (Refused 404 "Device not found", devices)
            | Some (deviceIndex, old) =>
                let updatedDevice :=
                  mkDeviceEntry
                    (default (deviceName old) (updateName body))
                    (mkDevice (id (device old))
                       (default (ip (device old)) (updateIp body))
                       (match r with
                        | Given relay => Z.to_nat relay
                        | _ => relayIndex (device old)
                        end)
                       (match bt with
                        | Given b => Some b
                        | Null => None
                        | _ => btSensorId (device old)
                        end)) in
                (Answered 200 updatedDevice, <[deviceIndex := updatedDevice]> devices)
            end
        end
  end.

(** [DELETE /devices/:id]; it does not look at the rooms. *)
Definition deleteDevice (devices : list DeviceEntry) (deviceId : string)
  : Answer unit * list DeviceEntry :=
  let updatedDevices := filter (fun d => id (device d) ≠ deviceId) devices in
  if bool_decide (length updatedDevices = length devices) then
    (Refused 404 "Device not found", devices)
  else (Answered 204 tt, updatedDevices).

(** A request to the device registry. *)
Inductive DeviceCall :=
| PostDevice (body : DeviceBody)
| PutDevice (deviceId : string) (body : DeviceUpdate)
| DeleteDevice (deviceId : string).

Definition deviceStep (devices : list DeviceEntry) (c : DeviceCall) : list DeviceEntry :=
  match c with
  | PostDevice body => (postDevice devices body).2
  | PutDevice deviceId body => (putDevice devices deviceId body).2
  | DeleteDevice deviceId => (deleteDevice devices deviceId).2
  end.

Definition deviceRun (devices : list DeviceEntry) (calls : list DeviceCall)
  : list DeviceEntry :=
  fold_left deviceStep calls devices.

(** An entry of [rooms.json] as the room routes write it: the fields that
    are [null] outside their mode are options. *)
Record RoomEntry (num : Type) := mkRoomEntry {
  roomName : string;
  entryRoomId : string;
  entryRadiatorDeviceIds : list string;
  entryControlMode : string;
  entrySensorDeviceId : option string;
  entryTargetTempC : option num;
  entryHysteresisC : option num;
  entrySchedule : option (gmap string (list (Slot num)))
}.
Arguments mkRoomEntry {num}.
Arguments roomName {num}.
Arguments entryRoomId {num}.
Arguments entryRadiatorDeviceIds {num}.
Arguments entryControlMode {num}.
Arguments entrySensorDeviceId {num}.
Arguments entryTargetTempC {num}.
Arguments entryHysteresisC {num}.
Arguments entrySchedule {num}.

(** Body of [POST /rooms].  A text field is [None] when it is [undefined]
    or [null]; [bodyRadiatorDeviceIds] is [Undefined] or [Null] when falsy,
    [Mistyped] when it is some other value that is not an array;
    [bodyTargetTempC] is [None] when [undefined] or [null],
    [bodyHysteresisC] when [undefined]; [bodySchedule] is [None] when it is
    falsy or not an object. *)
Record RoomBody (num : Type) := mkRoomBody {
  bodyRoomId : option string;
  bodyRoomName : option string;
  bodyRadiatorDeviceIds : Field (list string);
  bodyControlMode : option string;
  bodySensorDeviceId : option string;
  bodyTargetTempC : option num;
  bodyHysteresisC : option num;
  bodySchedule : option (gmap string (list (Slot num)))
}.
Arguments mkRoomBody {num}.
Arguments bodyRoomId {num}.
Arguments bodyRoomName {num}.
Arguments bodyRadiatorDeviceIds {num}.
Arguments bodyControlMode {num}.
Arguments bodySensorDeviceId {num}.
Arguments bodyTargetTempC {num}.
Arguments bodyHysteresisC {num}.
Arguments bodySchedule {num}.

(** Body of [PUT /rooms/:roomId]: a [roomId] in it is not read; the
    radiator ids are an array and the schedule an object whenever they are
    truthy ([None] when falsy). *)
Record RoomUpdate (num : Type) := mkRoomUpdate {
  updateRoomName : option string;
  updateRadiatorDeviceIds : option (list string);
  updateControlMode : option string;
  updateSensorDeviceId : option string;
  updateTargetTempC : option num;
  updateHysteresisC : option num;
  updateSchedule : option (gmap string (list (Slot num)))
}.
Arguments mkRoomUpdate {num}.
Arguments updateRoomName {num}.
Arguments updateRadiatorDeviceIds {num}.
Arguments updateControlMode {num}.
Arguments updateSensorDeviceId {num}.
Arguments updateTargetTempC {num}.
Arguments updateHysteresisC {num}.
Arguments updateSchedule {num}.

(** A request to the room registry. *)
Inductive RoomCall (num : Type) :=
| PostRoom (devices : list DeviceEntry) (body : RoomBody num)
| PutRoom (devices : list DeviceEntry) (rid : string) (body : RoomUpdate num)
| PutTarget (rid : string) (target : option num)
| PutSchedule (rid : string) (sched : option (gmap string (list (Slot num))))
| DeleteRoom (rid : string).
Arguments PostRoom {num}.
Arguments PutRoom {num}.
Arguments PutTarget {num}.
Arguments PutSchedule {num}.
Arguments DeleteRoom {num}.

Section RoomRoutes.
Context {num : Type}.

(** The hysteresis stored when the body gives none, the literal [1.0]. *)
Variable defaultHysteresisC : num.

(** JavaScript truthiness of a text field: [""] is falsy. *)
Definition truthy (s : option string) : option string :=
  match s with
  | Some t => if bool_decide (t = EmptyString) then None else Some t
  | None => None
  end.

(** The loop over [radiatorDeviceIds] in the room routes: the first id that
    is not registered, if any. *)
Definition firstUnknownRadiator (devices : list DeviceEntry) (ids : list string)
  : option string :=
  List.find (fun devId =>
               bool_decide (findDeviceById (registered devices) devId = None)) ids.

(** The thermostat block of [POST /rooms]: the checked sensor id, target
    and hysteresis, or the message of the refusal. *)
Definition postThermostatFields (devices : list DeviceEntry)
    (sensorDeviceId : option string) (targetTempC hysteresisC : option num)
  : string + (string * num * num) :=
  match truthy sensorDeviceId, targetTempC with
  | Some sid, Some target =>
      match findDeviceById (registered devices) sid with
      | None => inl ("Sensor device with id '" +:+ sid +:+ "' not found")
      | Some sensorDevice =>
          match btSensorId sensorDevice with
          | None =>
              inl ("Sensor device '" +:+ sid +:+ "' does not have a btSensorId defined")
          | Some _ =>
              inr (sid, target, default defaultHysteresisC hysteresisC)
          end
      end
  | _, _ => inl "Thermostat mode requires sensorDeviceId and targetTempC"
  end.

(** The thermostat block of [PUT /rooms/:roomId], with its single message
    for an unknown sensor device and one without sensor index. *)
Definition putThermostatFields (devices : list DeviceEntry)
    (sensorDeviceId : option string) (targetTempC hysteresisC : option num)
  : string + (string * num * num) :=
  match truthy sensorDeviceId, targetTempC with
  | Some sid, Some target =>
      match findDeviceById (registered devices) sid ≫= btSensorId with
      | None => inl ("Invalid or non-sensor device specified: '" +:+ sid +:+ "'")
      | Some _ =>
          inr (sid, target, default defaultHysteresisC hysteresisC)
      end
  | _, _ => inl "Thermostat mode requires sensorDeviceId and targetTempC"
  end.

(** [POST /rooms] *)
Definition postRoom (devices : list DeviceEntry) (rooms : list (RoomEntry num))
    (body : RoomBody num) : Answer (RoomEntry num) * list (RoomEntry num) :=
  match truthy (bodyRoomId body), truthy (bodyRoomName body),
        bodyRadiatorDeviceIds body, truthy (bodyControlMode body) with
  | Some rid, Some name, Mistyped, Some mode =>
      (Refused 400 "radiatorDeviceIds must be an array", rooms)
  | Some rid, Some name, Given radiators, Some mode =>
      if negb (bool_decide (mode = "thermostat") || bool_decide (mode = "schedule")) then
        (Refused 400 "controlMode must be 'thermostat' or 'schedule'", rooms)
      else if existsb (fun r => bool_decide (entryRoomId r = rid)) rooms then
        (Refused 409 ("Room with roomId '" +:+ rid +:+ "' already exists"), rooms)
      else
        match firstUnknownRadiator devices radiators with
        | Some devId =>
            (Refused 400 ("Radiator device with id '" +:+ devId +:+ "' not found"), rooms)
        | None =>
            if bool_decide (mode = "thermostat") then
              match postThermostatFields devices (bodySensorDeviceId body)
                      (bodyTargetTempC body) (bodyHysteresisC body) with
              | inl message => (Refused 400 message, rooms)
              | inr (sid, target, hysteresis) =>
                  let newRoom :=
                    mkRoomEntry name rid radiators mode
                                (Some sid) (Some target) (Some hysteresis) None in
                  (Answered 201 newRoom, rooms ++ [newRoom])
              end
            else
              match bodySchedule body with
              | None =>
                  (Refused 400 "Schedule mode requires a valid schedule object", rooms)
              | Some sched =>
                  let newRoom :=
                    mkRoomEntry name rid radiators mode None None None (Some sched) in
                  (Answered 201 newRoom, rooms ++ [newRoom])
              end
        end
  | _, _, _, _ =>
      (Refused 400
         "Missing required fields: roomId, name, radiatorDeviceIds, controlMode",
       rooms)
  end.

(** [GET /rooms/:roomId] *)
Definition getRoom (rooms : list (RoomEntry num)) (rid : string)
  : Answer (RoomEntry num) :=
  match List.find (fun r => bool_decide (entryRoomId r = rid)) rooms with
  | None => Refused 404 "Room not found"
  | Some room => Answered 200 room
  end.

(** [PUT /rooms/:roomId/target] *)
Definition putTarget (rooms : list (RoomEntry num)) (rid : string)
    (target : option num) : Answer (RoomEntry num) * list (RoomEntry num) :=
  match target with
  | None => (Refused 400 "Missing targetTempC", rooms)
  | Some t =>
      match list_find (fun r => entryRoomId r = rid) rooms with
      | None => (Refused 404 "Room not found", rooms)
      | Some (roomIndex, room) =>
          if bool_decide (entryControlMode room ≠ "thermostat") then
            (Refused 400
               "Can only set target temperature for rooms in thermostat mode", rooms)
          else
            let updated :=
              mkRoomEntry (roomName room) (entryRoomId room)
                          (entryRadiatorDeviceIds room) (entryControlMode room)
                          (entrySensorDeviceId room) (Some t)
                          (entryHysteresisC room) (entrySchedule room) in
            (Answered 200 updated, <[roomIndex := updated]> rooms)
      end
  end.

(** [PUT /rooms/:roomId/schedule]; the mode is not looked at. *)
Definition putSchedule (rooms : list (RoomEntry num)) (rid : string)
    (sched : option (gmap string (list (Slot num))))
  : Answer (RoomEntry num) * list (RoomEntry num) :=
  match sched with
  | None => (Refused 400 "Invalid schedule provided", rooms)
  | Some s =>
      match list_find (fun r => entryRoomId r = rid) rooms with
      | None => (Refused 404 "Room not found", rooms)
      | Some (roomIndex, room) =>
          let updated :=
            mkRoomEntry (roomName room) (entryRoomId room)
                        (entryRadiatorDeviceIds room) (entryControlMode room)
                        (entrySensorDeviceId room) (entryTargetTempC room)
                        (entryHysteresisC room) (Some s) in
          (Answered 200 updated, <[roomIndex := updated]> rooms)
      end
  end.

(** [DELETE /rooms/:roomId] *)
Definition deleteRoom (rooms : list (RoomEntry num)) (rid : string)
  : Answer unit * list (RoomEntry num) :=
  let updatedRooms := filter (fun r => entryRoomId r ≠ rid) rooms in
  if bool_decide (length updatedRooms = length rooms) then
    (Refused 404 "Room not found", rooms)
  else (Answered 204 tt, updatedRooms).

(** [PUT /rooms/:roomId]: the whole entry is replaced; the mode is not
    checked against the two known ones. *)
Definition putRoom (devices : list DeviceEntry) (rooms : list (RoomEntry num))
    (rid : string) (body : RoomUpdate num)
  : Answer (RoomEntry num) * list (RoomEntry num) :=
  match truthy (updateRoomName body), updateRadiatorDeviceIds body,
        truthy (updateControlMode body), updateSchedule body with
  | Some name, Some radiators, Some mode, Some sched =>
      match list_find (fun r => entryRoomId r = rid) rooms with
      | None => (Refused 404 "Room not found", rooms)
      | Some (roomIndex, _) =>
          match firstUnknownRadiator devices radiators with
          | Some devId =>
              (Refused 400 ("Radiator device with id '" +:+ devId +:+ "' not found"),
               rooms)
          | None =>
              if bool_decide (mode = "thermostat") then
                match putThermostatFields devices (updateSensorDeviceId body)
                        (updateTargetTempC body) (updateHysteresisC body) with
                | inl message => (Refused 400 message, rooms)
                | inr (sid, target, hysteresis) =>
                    let updatedRoom :=
                      mkRoomEntry name rid radiators mode
                                  (Some sid) (Some target) (Some hysteresis)
                                  (Some sched) in
                    (Answered 200 updatedRoom, <[roomIndex := updatedRoom]> rooms)
                end
              else
                let updatedRoom :=
                  mkRoomEntry name rid radiators mode None None None (Some sched) in
                (Answered 200 updatedRoom, <[roomIndex := updatedRoom]> rooms)
          end
      end
  | _, _, _, _ =>
      (Refused 400
         "Missing required fields: name, radiatorDeviceIds, controlMode, schedule",
       rooms)
  end.

Definition roomStep (rooms : list (RoomEntry num)) (c : RoomCall num)
  : list (RoomEntry num) :=
  match c with
  | PostRoom devices body => (postRoom devices rooms body).2
  | PutRoom devices rid body => (putRoom devices rooms rid body).2
  | PutTarget rid target => (putTarget rooms rid target).2
  | PutSchedule rid sched => (putSchedule rooms rid sched).2
  | DeleteRoom rid => (deleteRoom rooms rid).2
  end.

Definition roomRun (rooms : list (RoomEntry num)) (calls : list (RoomCall num))
  : list (RoomEntry num) :=
  fold_left roomStep calls rooms.

(** The entry as the control loop reads it; [filler] stands for a numeric
    field that is [null]. *)
Definition asRoom (filler : num) (e : RoomEntry num) : Room num :=
  mkRoom (entryRoomId e) (entryRadiatorDeviceIds e) (entryControlMode e)
         (entrySensorDeviceId e)
         (default filler (entryTargetTempC e))
         (default filler (entryHysteresisC e))
         (entrySchedule e).

(** What [POST /rooms] guarantees of the entry it stores. *)
Definition wellFormedEntry (devices : list DeviceEntry) (e : RoomEntry num) : Prop :=
  Forall (fun devId => is_Some (findDeviceById (registered devices) devId))
         (entryRadiatorDeviceIds e)
  /\ (entryControlMode e = "thermostat"
      /\ (exists sid sensorDevice,
             entrySensorDeviceId e = Some sid /\ sid ≠ EmptyString
             /\ findDeviceById (registered devices) sid = Some sensorDevice
             /\ is_Some (btSensorId sensorDevice))
      /\ is_Some (entryTargetTempC e)
      /\ is_Some (entryHysteresisC e)
      /\ entrySchedule e = None
      \/ entryControlMode e = "schedule"
         /\ entrySensorDeviceId e = None
         /\ entryTargetTempC e = None
         /\ entryHysteresisC e = None
         /\ is_Some (entrySchedule e)).

End RoomRoutes.

(** ** More sample configurations *)

Module Extra.

(** A run at Monday 10:00 with a failing sensor, all of whose relay calls
    succeed or all fail. *)
Definition world (ok : bool) : World Z :=
  mkWorld 0 (fun _ => mkRoomEnv (Sample.monday 10 0) Sample.silent) (fun _ _ => ok).

(** The device registry of the samples, with display names. *)
Definition entries : list DeviceEntry :=
  [mkDeviceEntry "Radiator A" Sample.relayA;
   mkDeviceEntry "Radiator B" Sample.relayB;
   mkDeviceEntry "Radiator C" Sample.relayC].

(** A body for [POST /rooms]: a thermostat room on radiator c, which also
    carries the sensor, target 20.0 (in tenths), no hysteresis given; the
    body also carries a schedule. *)
Definition studyBody : RoomBody Z :=
  mkRoomBody (Some "study") (Some "Study") (Given ["c"]) (Some "thermostat")
             (Some "c") (Some 200%Z) None
             (Some {[ "mon" := [mkSlot "00:00" "23:59" ["c"] None] ]}).

(** A body for [POST /rooms]: a schedule room on radiators a and b. *)
Definition loungeBody : RoomBody Z :=
  mkRoomBody (Some "lounge") (Some "Lounge") (Given ["a"; "b"]) (Some "schedule")
             None None None
             (Some {[ "mon" := [mkSlot "09:00" "17:00" ["a"] None] ]}).

(** A body for [PUT /rooms/:roomId] with a mode that is neither of the two. *)
Definition manualUpdate : RoomUpdate Z :=
  mkRoomUpdate (Some "Lounge") (Some ["a"]) (Some "manual") None None None
               (Some {[ "mon" := [mkSlot "09:00" "17:00" ["a"] None] ]}).

End Extra.

(** * Properties *)

(** ** String order and the "HH:MM" format *)

Lemma ascii_compare_trans a b c :
  Ascii.compare a b = Lt -> Ascii.compare b c = Lt -> Ascii.compare a c = Lt.
Proof.
  unfold Ascii.compare. rewrite !N.compare_lt_iff. lia.
Qed.

Lemma ascii_compare_refl a : Ascii.compare a a = Eq.
Proof. unfold Ascii.compare. apply N.compare_refl. Qed.

Lemma string_compare_refl s : String.compare s s = Eq.
Proof.
  induction s as [|c s IH]; simpl; [done|]. by rewrite ascii_compare_refl.
Qed.

Lemma string_compare_trans a : forall b c,
  String.compare a b = Lt -> String.compare b c = Lt -> String.compare a c = Lt.
Proof.
  induction a as [|x a IH]; intros [|y b] [|z c]; simpl; try done.
  destruct (Ascii.compare x y) eqn:Hxy; try done.
  - apply Ascii.compare_eq_iff in Hxy as ->.
    destruct (Ascii.compare y z); try done. apply IH.
  - intros _. destruct (Ascii.compare y z) eqn:Hyz; try done.
    + apply Ascii.compare_eq_iff in Hyz as <-. by rewrite Hxy.
    + by rewrite (ascii_compare_trans _ _ _ Hxy Hyz).
Qed.

Lemma lt_irrefl s : JsString.lt s s = false.
Proof. unfold JsString.lt. by rewrite string_compare_refl. Qed.

Lemma lt_trans a b c :
  JsString.lt a b = true -> JsString.lt b c = true -> JsString.lt a c = true.
Proof.
  unfold JsString.lt. intros Hab Hbc.
  destruct (String.compare a b) eqn:E1; try done.
  destruct (String.compare b c) eqn:E2; try done.
  by rewrite (string_compare_trans _ _ _ E1 E2).
Qed.

Lemma ge_lt_trans cur s e :
  JsString.ge cur s = true -> JsString.lt cur e = true -> JsString.lt s e = true.
Proof.
  unfold JsString.ge. intros Hge Hlt. apply negb_true_iff in Hge.
  unfold JsString.lt in Hge.
  destruct (String.compare cur s) eqn:E; try done.
  - by apply String.compare_eq_iff in E as <-.
  - apply lt_trans with cur; [|done]. unfold JsString.lt.
    rewrite String.compare_antisym, E. done.
Qed.

Lemma compare_app x : forall y s t,
  String.length x = String.length y ->
  String.compare (x +:+ s) (y +:+ t) =
    match String.compare x y with Eq => String.compare s t | o => o end.
Proof.
  induction x as [|a x IH]; intros [|b y] s t Hlen; simpl in *; try done.
  destruct (Ascii.compare a b); try done. apply IH. lia.
Qed.

Lemma pad2_table :
  forallb (fun a => forallb (fun b =>
     bool_decide (String.compare (pad2 a) (pad2 b) = Nat.compare a b)
     && bool_decide (String.length (pad2 a) = 2)) (seq 0 100)) (seq 0 100) = true.
Proof. vm_compute. reflexivity. Qed.

Lemma pad2_compare a b :
  a < 100 -> b < 100 -> String.compare (pad2 a) (pad2 b) = Nat.compare a b.
Proof.
  intros Ha Hb. pose proof pad2_table as T.
  rewrite forallb_forall in T. specialize (T a).
  rewrite forallb_forall in T. 
  assert (Hin : forall n, n < 100 -> In n (seq 0 100)) by (intros; apply in_seq; lia).
  specialize (T (Hin a Ha) b (Hin b Hb)).
  apply andb_true_iff in T as [T _]. by apply bool_decide_eq_true in T.
Qed.

Lemma pad2_length a : a < 100 -> String.length (pad2 a) = 2.
Proof.
  intros Ha. pose proof pad2_table as T.
  rewrite forallb_forall in T. specialize (T a).
  rewrite forallb_forall in T. 
  assert (Hin : forall n, n < 100 -> In n (seq 0 100)) by (intros; apply in_seq; lia).
  specialize (T (Hin a Ha) a (Hin a Ha)).
  apply andb_true_iff in T as [_ T]. by apply bool_decide_eq_true in T.
Qed.

Lemma hhmm_compare h1 m1 h2 m2 :
  h1 < 100 -> h2 < 100 -> m1 < 60 -> m2 < 60 ->
  String.compare (hhmm h1 m1) (hhmm h2 m2) = Nat.compare (h1 * 60 + m1) (h2 * 60 + m2).
Proof.
  intros Hh1 Hh2 Hm1 Hm2. unfold hhmm.
  rewrite compare_app by (rewrite !pad2_length; lia).
  rewrite pad2_compare by lia.
  destruct (Nat.compare_spec h1 h2) as [->|Hlt|Hgt].
  - rewrite (compare_app ":" ":") by done. simpl.
    rewrite pad2_compare by lia.
    destruct (Nat.compare_spec m1 m2); symmetry;
      [apply Nat.compare_eq_iff | apply Nat.compare_lt_iff | apply Nat.compare_gt_iff]; lia.
  - symmetry. apply Nat.compare_lt_iff. lia.
  - symmetry. apply Nat.compare_gt_iff. lia.
Qed.

Lemma hhmm_lt h1 m1 h2 m2 :
  h1 < 100 -> h2 < 100 -> m1 < 60 -> m2 < 60 ->
  JsString.lt (hhmm h1 m1) (hhmm h2 m2) = true <-> h1 * 60 + m1 < h2 * 60 + m2.
Proof.
  intros. unfold JsString.lt. rewrite hhmm_compare by done.
  destruct (Nat.compare_spec (h1 * 60 + m1) (h2 * 60 + m2)); split; (done || lia).
Qed.

Lemma hhmm_ge h1 m1 h2 m2 :
  h1 < 100 -> h2 < 100 -> m1 < 60 -> m2 < 60 ->
  JsString.ge (hhmm h1 m1) (hhmm h2 m2) = true <-> h2 * 60 + m2 <= h1 * 60 + m1.
Proof.
  intros. unfold JsString.ge, JsString.lt. rewrite hhmm_compare by done.
  destruct (Nat.compare_spec (h1 * 60 + m1) (h2 * 60 + m2)); split; simpl; (done || lia).
Qed.

(** ** Active-slot selection *)

Section ActiveSlotFacts.
Context {num : Type}.
Implicit Types (slot : Slot num) (slots : list (Slot num)).

Lemma slotMatches_true cur slot :
  slotMatches cur slot = true <->
  JsString.ge cur (startTime slot) = true /\ JsString.lt cur (endTime slot) = true.
Proof. unfold slotMatches. apply andb_true_iff. Qed.

Lemma slotMatches_ordered cur slot :
  slotMatches cur slot = true -> JsString.lt (startTime slot) (endTime slot) = true.
Proof.
  intros [Hge Hlt]%slotMatches_true. by apply ge_lt_trans with cur.
Qed.

Lemma findActiveSlot_Some cur slots slot :
  findActiveSlot cur slots = Some slot <->
  exists pre post,
    slots = pre ++ slot :: post
    /\ Forall (fun s => slotMatches cur s = false) pre
    /\ slotMatches cur slot = true.
Proof.
  induction slots as [|s rest IH]; simpl.
  - split; [done|]. intros (pre & post & Heq & _). by destruct pre.
  - destruct (slotMatches cur s) eqn:Hs.
    + split.
      * intros [= <-]. exists [], rest. by repeat split.
      * intros (pre & post & Heq & Hpre & Hm).
        destruct pre as [|p pre]; simpl in Heq.
        -- by injection Heq as -> _.
        -- injection Heq as -> _. apply Forall_cons in Hpre as [Hp _]. congruence.
    + rewrite IH. split.
      * intros (pre & post & -> & Hpre & Hm).
        exists (s :: pre), post. repeat split; [by constructor | done].
      * intros (pre & post & Heq & Hpre & Hm).
        destruct pre as [|p pre]; simpl in Heq.
        -- injection Heq as -> _. congruence.
        -- injection Heq as -> ->. apply Forall_cons in Hpre as [_ Hpre].
           by exists pre, post.
Qed.

Lemma findActiveSlot_None cur slots :
  findActiveSlot cur slots = None <-> Forall (fun s => slotMatches cur s = false) slots.
Proof.
  induction slots as [|s rest IH]; simpl.
  - split; [constructor | done].
  - destruct (slotMatches cur s) eqn:Hs.
    + split; [done|]. intros [Hc _]%Forall_cons. congruence.
    + rewrite IH. split; [by constructor | by intros [_ ?]%Forall_cons].
Qed.

Lemma findActiveSlot_matches cur slots slot :
  findActiveSlot cur slots = Some slot -> slot ∈ slots /\ slotMatches cur slot = true.
Proof.
  intros (pre & post & -> & _ & Hm)%findActiveSlot_Some. split; [|done].
  apply elem_of_app. right. by left.
Qed.

Lemma slotMatches_hhmm now hs ms he me ids (t : option num) :
  getHours now < 24 -> getMinutes now < 60 ->
  hs < 24 -> ms < 60 -> he < 24 -> me < 60 ->
  slotMatches (currentTime now) (mkSlot (hhmm hs ms) (hhmm he me) ids t) = true <->
  hs * 60 + ms <= getHours now * 60 + getMinutes now < he * 60 + me.
Proof.
  intros. rewrite slotMatches_true. simpl. unfold currentTime.
  rewrite hhmm_ge, hhmm_lt by lia. done.
Qed.

End ActiveSlotFacts.

(** C6. The active slot is the first slot in stored order whose half-open
    interval [start, end) contains the current time: whenever a slot is
    selected every slot stored before it fails the test (so among
    overlapping slots the earliest stored wins), no slot is selected exactly
    when none matches, and a slot whose end is not after its start is never
    selected at any time; on "HH:MM" times the string test is the
    comparison of minutes of the day. *)
Theorem active_slot_first_match {num : Type} (cur : string) (slots : list (Slot num)) :
  (forall slot, findActiveSlot cur slots = Some slot <->
     exists pre post, slots = pre ++ slot :: post
       /\ Forall (fun s => slotMatches cur s = false) pre
       /\ JsString.ge cur (startTime slot) = true
       /\ JsString.lt cur (endTime slot) = true)
  /\ (findActiveSlot cur slots = None <->
        Forall (fun s => slotMatches cur s = false) slots)
  /\ (forall slot, JsString.lt (startTime slot) (endTime slot) = false ->
        slotMatches cur slot = false /\ findActiveSlot cur slots ≠ Some slot)
  /\ (forall now hs ms he me ids (t : option num),
        getHours now < 24 -> getMinutes now < 60 ->
        hs < 24 -> ms < 60 -> he < 24 -> me < 60 ->
        (slotMatches (currentTime now) (mkSlot (hhmm hs ms) (hhmm he me) ids t) = true <->
           hs * 60 + ms <= getHours now * 60 + getMinutes now < he * 60 + me)
        /\ (he * 60 + me <= hs * 60 + ms ->
            slotMatches (currentTime now) (mkSlot (hhmm hs ms) (hhmm he me) ids t) = false)).
Proof.
  split; [|split; [|split]].
  - intros slot. rewrite findActiveSlot_Some. split.
    + intros (pre & post & Heq & Hpre & Hm).
      apply slotMatches_true in Hm as [??]. by exists pre, post.
    + intros (pre & post & Heq & Hpre & Hge & Hlt).
      exists pre, post. split; [done|]. split; [done|]. by apply slotMatches_true.
  - apply findActiveSlot_None.
  - intros slot Hnot. split.
    + destruct (slotMatches cur slot) eqn:Hm; [|done].
      apply slotMatches_ordered in Hm. congruence.
    + intros [_ Hm]%findActiveSlot_matches.
      apply slotMatches_ordered in Hm. congruence.
  - intros now hs ms he me ids t Hh Hm Hhs Hms Hhe Hme.
    pose proof (slotMatches_hhmm now hs ms he me ids t Hh Hm Hhs Hms Hhe Hme) as Hiff.
    split; [exact Hiff|]. intros Hle.
    destruct (slotMatches _ _); [|done]. destruct Hiff as [Hiff _]. lia.
Qed.

Lemma active_slot_first_match_witness :
  let early : Slot Z := mkSlot (hhmm 9 0) (hhmm 17 0) ["a"] None in
  let late : Slot Z := mkSlot (hhmm 10 0) (hhmm 12 0) ["b"] None in
  let night : Slot Z := mkSlot (hhmm 22 0) (hhmm 6 0) ["a"] None in
  findActiveSlot (currentTime (mkLocalTime 1 10 30)) [night; early; late] = Some early
  /\ slotMatches (currentTime (mkLocalTime 1 23 15)) night = false.
Proof.
  intros early late night.
  destruct (active_slot_first_match (num := Z)
              (currentTime (mkLocalTime 1 10 30)) [night; early; late])
    as (Hfirst & _ & _ & Hclock).
  split.
  - apply Hfirst. exists [night], [late].
    split; [reflexivity|]. split; [|vm_compute; split; reflexivity].
    repeat constructor.
  - apply (Hclock (mkLocalTime 1 23 15) 22 0 6 0 ["a"] None); simpl; lia.
Defined.

(** ** One room: boosts, slots, radiators *)

Lemma pruneBoosts_lookup_Some now (boosts : gmap string Boost) rid boost :
  pruneBoosts now boosts !! rid = Some boost <->
  boosts !! rid = Some boost /\ (now < until boost)%Z.
Proof.
  unfold pruneBoosts. rewrite map_lookup_filter_Some. simpl.
  split; intros [? ?]; (split; [done | lia]).
Qed.

Lemma pruneBoosts_lookup_None now (boosts : gmap string Boost) rid :
  pruneBoosts now boosts !! rid = None <->
  forall boost, boosts !! rid = Some boost -> (until boost <= now)%Z.
Proof.
  unfold pruneBoosts. rewrite map_lookup_filter_None. simpl. split.
  - intros [Hn | Hall] boost Hb; [congruence|].
    specialize (Hall boost Hb). lia.
  - intros Hall. right. intros boost Hb. specialize (Hall boost Hb). lia.
Qed.

Section RoomFacts.
Context {num : Type} {NUM : JsNumber num}.
Implicit Types (room : Room num) (env : RoomEnv num) (devices : list Device)
  (boosts : gmap string Boost) (cache : gmap string RelayState).

Lemma processRoom_entries devices boosts cache env room R st :
  (R, st) ∈ processRoom devices boosts cache env room <->
  R ∈ radiatorDeviceIds room /\ st = roomDesired devices boosts cache env room R.
Proof.
  unfold processRoom. rewrite list_elem_of_fmap. split.
  - intros (rid & [= -> ->] & Hin). done.
  - intros [Hin ->]. by exists R.
Qed.

Lemma enabledIdsInSlot_elem (activeSlot : option (Slot num)) R :
  R ∈ enabledIdsInSlot activeSlot <->
  exists slot, activeSlot = Some slot /\ R ∈ enabledRadiatorIds slot.
Proof.
  destruct activeSlot as [slot|]; simpl.
  - split; [by exists slot | by intros (? & [= <-] & ?)].
  - split; [by intros ?%elem_of_nil | by intros (? & ? & _)].
Qed.

Lemma desired_not_boosted room activeBoost enabled heating R :
  isRadiatorBoosted activeBoost R = false ->
  desiredRadiatorState room activeBoost enabled heating R = on <->
    R ∈ enabled /\
    (controlMode room = "thermostat" /\ heating = true
     \/ controlMode room = "schedule").
Proof.
  intros Hnb. unfold desiredRadiatorState. rewrite Hnb.
  assert (Hmodes : "thermostat" ≠ "schedule") by done.
  destruct (decide (R ∈ enabled)) as [Hin|Hin];
    [rewrite (bool_decide_eq_true_2 _ Hin) | rewrite (bool_decide_eq_false_2 _ Hin)];
    repeat case_bool_decide; destruct heating; simpl;
    intuition congruence.
Qed.

Lemma desired_boosted room activeBoost enabled heating R :
  isRadiatorBoosted activeBoost R = true ->
  desiredRadiatorState room activeBoost enabled heating R = on.
Proof. intros Hb. unfold desiredRadiatorState. by rewrite Hb. Qed.

End RoomFacts.

(** ** The command object *)

Module JsObjectFacts.
Import JsObject.

Section Facts.
Context {V : Type}.
Implicit Types (o : list (string * V)) (k : string) (v : V).

Lemma get_set_eq o k v : get (set o k v) k = Some v.
Proof.
  induction o as [|[k' v'] o IH]; simpl.
  - by rewrite bool_decide_eq_true_2.
  - case_bool_decide as Hk; simpl.
    + by rewrite bool_decide_eq_true_2.
    + by rewrite bool_decide_eq_false_2.
Qed.

Lemma get_set_ne o k k' v : k ≠ k' -> get (set o k v) k' = get o k'.
Proof.
  intros Hne. induction o as [|[k0 v0] o IH]; simpl.
  - by rewrite bool_decide_eq_false_2.
  - case_bool_decide as Hk; simpl.
    + subst k0. by rewrite !bool_decide_eq_false_2.
    + by rewrite IH.
Qed.

Lemma keys_set o k v :
  keys (set o k v) = if bool_decide (k ∈ keys o) then keys o else keys o ++ [k].
Proof.
  unfold keys. induction o as [|[k0 v0] o IH]; simpl; [done|].
  destruct (decide (k0 = k)) as [->|Hk].
  - rewrite !bool_decide_eq_true_2; [done | by left | done].
  - rewrite (bool_decide_eq_false_2 (k0 = k)) by done.
    rewrite fmap_cons. simpl. rewrite IH.
    destruct (decide (k ∈ o.*1)) as [Hin|Hin].
    + rewrite !bool_decide_eq_true_2; [done | by right | done].
    + rewrite !bool_decide_eq_false_2; [done | | done].
      intros [?|?]%elem_of_cons; [congruence | done].
Qed.

Lemma keys_set_NoDup o k v : NoDup (keys o) -> NoDup (keys (set o k v)).
Proof.
  intros Hnd. rewrite keys_set. case_bool_decide as Hin; [done|].
  apply NoDup_app. split; [done|]. split; [|apply NoDup_singleton].
  intros x Hx ->%list_elem_of_singleton. done.
Qed.

Lemma get_Some_elem o k v : get o k = Some v -> (k, v) ∈ o.
Proof.
  induction o as [|[k0 v0] o IH]; simpl; [done|].
  case_bool_decide as Hk.
  - intros [= ->]. subst. by left.
  - intros H. right. by apply IH.
Qed.

Lemma elem_get_NoDup o k v : NoDup (keys o) -> (k, v) ∈ o -> get o k = Some v.
Proof.
  unfold keys. induction o as [|[k0 v0] o IH]; simpl.
  - by intros _ ?%elem_of_nil.
  - intros [Hk0 Hnd]%NoDup_cons [Heq|Hin]%elem_of_cons.
    + injection Heq as -> ->. by rewrite bool_decide_eq_true_2.
    + rewrite bool_decide_eq_false_2; [by apply IH|].
      intros ->. apply Hk0. apply list_elem_of_fmap. by exists (k, v).
Qed.

Lemma get_is_Some o k : is_Some (get o k) <-> k ∈ keys o.
Proof.
  unfold keys. induction o as [|[k0 v0] o IH]; simpl.
  - split; [by intros [? ?] | by intros ?%elem_of_nil].
  - case_bool_decide as Hk.
    + subst. split; [by left | by eexists].
    + rewrite IH. split; [by right|]. intros [?|?]%elem_of_cons; [congruence | done].
Qed.

Lemma forIn_Permutation o : forIn o ≡ₚ o.
Proof.
  unfold forIn. rewrite merge_sort_Permutation.
  induction o as [|[k v] o IH]; simpl; [done|].
  rewrite filter_cons. simpl. destruct (arrayIndex k) as [n|] eqn:Hk; simpl.
  - by apply perm_skip.
  - rewrite <- Permutation_middle. by apply perm_skip.
Qed.

Lemma forIn_keys_NoDup o : NoDup (keys o) -> NoDup (keys (forIn o)).
Proof. unfold keys. by rewrite forIn_Permutation. Qed.

Lemma forIn_elem o kv : kv ∈ forIn o <-> kv ∈ o.
Proof. by rewrite forIn_Permutation. Qed.

End Facts.
End JsObjectFacts.

(** ** The planning phase *)

Section PlanFacts.
Context {num : Type} {NUM : JsNumber num}.
Implicit Types (room : Room num) (rooms : list (Room num)) (devices : list Device)
  (boosts : gmap string Boost) (cache : gmap string RelayState)
  (envs : nat -> RoomEnv num) (o : list (string * RelayState)).

Lemma assignAll_keys_NoDup o l :
  NoDup (JsObject.keys o) -> NoDup (JsObject.keys (assignAll o l)).
Proof.
  revert o. induction l as [|[k v] l IH]; intros o Hnd; simpl; [done|].
  apply IH. by apply JsObjectFacts.keys_set_NoDup.
Qed.

Lemma assignAll_get o (f : string -> RelayState) (ids : list string) R :
  JsObject.get (assignAll o (map (fun rid => (rid, f rid)) ids)) R =
    if bool_decide (R ∈ ids) then Some (f R) else JsObject.get o R.
Proof.
  revert o. induction ids as [|rid ids IH]; intros o; simpl; [done|].
  unfold assignAll in *. simpl. rewrite IH.
  destruct (decide (R ∈ ids)) as [Hin|Hin].
  - rewrite !bool_decide_eq_true_2; [done | by right | done].
  - rewrite (bool_decide_eq_false_2 (R ∈ ids)) by done.
    destruct (decide (rid = R)) as [->|Hne].
    + rewrite bool_decide_eq_true_2 by (by left).
      apply JsObjectFacts.get_set_eq.
    + rewrite bool_decide_eq_false_2.
      * by apply JsObjectFacts.get_set_ne.
      * intros [?|?]%elem_of_cons; [congruence | done].
Qed.

Lemma processRoom_get devices boosts cache env room o R :
  JsObject.get (assignAll o (processRoom devices boosts cache env room)) R =
    if bool_decide (R ∈ radiatorDeviceIds room)
    then Some (roomDesired devices boosts cache env room R)
    else JsObject.get o R.
Proof. unfold processRoom. apply assignAll_get. Qed.

Lemma planRooms_keys_NoDup devices boosts cache envs rooms : forall i o,
  NoDup (JsObject.keys o) ->
  NoDup (JsObject.keys (planRooms devices boosts cache envs i rooms o)).
Proof.
  induction rooms as [|room rooms IH]; intros i o Hnd; simpl; [done|].
  apply IH. by apply assignAll_keys_NoDup.
Qed.

Lemma planRooms_get_other devices boosts cache envs rooms R : forall i o,
  Forall (fun room => R ∉ radiatorDeviceIds room) rooms ->
  JsObject.get (planRooms devices boosts cache envs i rooms o) R = JsObject.get o R.
Proof.
  induction rooms as [|room rooms IH]; intros i o Hall; simpl; [done|].
  apply Forall_cons in Hall as [Hroom Hall].
  rewrite IH by done. rewrite processRoom_get.
  by rewrite bool_decide_eq_false_2.
Qed.

(** The value left in [commandsToSend] for a radiator is the one assigned
    by the last room that lists it. *)
Lemma planRooms_get_last devices boosts cache envs pre room post R : forall i o,
  R ∈ radiatorDeviceIds room ->
  Forall (fun later => R ∉ radiatorDeviceIds later) post ->
  JsObject.get (planRooms devices boosts cache envs i (pre ++ room :: post) o) R =
    Some (roomDesired devices boosts cache (envs (i + length pre)) room R).
Proof.
  induction pre as [|p pre IH]; intros i o Hin Hpost; simpl.
  - rewrite planRooms_get_other by done. rewrite processRoom_get.
    rewrite bool_decide_eq_true_2 by done. by rewrite Nat.add_0_r.
  - rewrite IH by done. do 3 f_equal. lia.
Qed.

Lemma planRooms_is_Some devices boosts cache envs rooms R : forall i o room,
  room ∈ rooms -> R ∈ radiatorDeviceIds room ->
  is_Some (JsObject.get (planRooms devices boosts cache envs i rooms o) R).
Proof.
  induction rooms as [|r rooms IH]; intros i o room Hroom Hin; simpl.
  - by apply elem_of_nil in Hroom.
  - destruct (decide (Exists (fun later => R ∈ radiatorDeviceIds later) rooms))
      as [Hex|Hnone].
    + apply Exists_exists in Hex as (later & Hl & HR). by apply IH with later.
    + apply elem_of_cons in Hroom as [->|Hroom].
      * rewrite planRooms_get_other.
        -- rewrite processRoom_get. rewrite bool_decide_eq_true_2 by done. by eexists.
        -- apply Forall_forall. intros later Hl HR. apply Hnone.
           apply Exists_exists. by exists later.
      * exfalso. apply Hnone. apply Exists_exists. by exists room.
Qed.

End PlanFacts.

(** ** One room: the thermostat and the boost test *)

Section ThermostatFacts.
Context {num : Type} {NUM : JsNumber num}.
Implicit Types (room : Room num) (env : RoomEnv num) (devices : list Device)
  (boosts : gmap string Boost) (cache : gmap string RelayState).

Lemma isRadiatorBoosted_pruned now boosts rid R :
  isRadiatorBoosted (pruneBoosts now boosts !! rid) R = true <->
  exists boost, boosts !! rid = Some boost /\ (now < until boost)%Z
                /\ R ∈ radiatorIds boost.
Proof.
  unfold isRadiatorBoosted.
  destruct (pruneBoosts now boosts !! rid) as [b|] eqn:Hb.
  - apply pruneBoosts_lookup_Some in Hb as [Hb Hlt].
    rewrite bool_decide_eq_true. split.
    + intros Hin. by exists b.
    + intros (b' & Hb' & _ & Hin). congruence.
  - split; [done|]. intros (b & Hb' & Hlt & _).
    pose proof (proj1 (pruneBoosts_lookup_None now boosts rid) Hb b Hb'). lia.
Qed.

Lemma heatingNeeded_not_thermostat devices cache env room activeSlot :
  controlMode room ≠ "thermostat" ->
  heatingNeededByTemp devices cache env room activeSlot = false.
Proof. intros Hm. unfold heatingNeededByTemp. by rewrite bool_decide_eq_false_2. Qed.

Lemma heatingNeeded_read devices cache env room activeSlot sid dev bt cur :
  controlMode room = "thermostat" ->
  sensorDeviceId room = Some sid -> sid ≠ EmptyString ->
  findDeviceById devices sid = Some dev ->
  btSensorId dev = Some bt ->
  sensorGet env (ip dev) bt = SensorData (Some cur) ->
  heatingNeededByTemp devices cache env room activeSlot =
    thermostatDecision cache room activeSlot cur.
Proof.
  intros Hm Hs Hne Hd Hbt Hget. unfold heatingNeededByTemp.
  rewrite bool_decide_eq_true_2 by done. rewrite Hs.
  rewrite bool_decide_eq_false_2 by done. by rewrite Hd, Hbt, Hget.
Qed.

Lemma heatingNeeded_unavailable devices cache env room activeSlot :
  SensorUnavailable devices env room ->
  heatingNeededByTemp devices cache env room activeSlot = false.
Proof.
  intros Hu. unfold heatingNeededByTemp.
  case_bool_decide; [|done].
  destruct Hu as [[Hs|Hs] | sid Hs Hd | sid dev Hs Hd Hbt
                 | sid dev bt Hs Hd Hbt Hget | sid dev bt Hs Hd Hbt Hget];
    rewrite Hs; try done; case_bool_decide; try done;
    rewrite Hd; try done; rewrite Hbt; try done; by rewrite Hget.
Qed.

Lemma lastAnyRadOn_true cache room :
  lastAnyRadOn cache room = true <->
  exists rid, rid ∈ radiatorDeviceIds room /\ cache !! rid = Some on.
Proof.
  unfold lastAnyRadOn. rewrite existsb_exists. split.
  - intros (rid & Hin & Hon). exists rid.
    split; [by apply list_elem_of_In | by apply bool_decide_eq_true in Hon].
  - intros (rid & Hin & Hon). exists rid.
    split; [by apply list_elem_of_In | by apply bool_decide_eq_true].
Qed.

End ThermostatFacts.

(** ** Schedule mode *)


Section ScheduleClaims.
Context {num : Type} {NUM : JsNumber num}.
Implicit Types (room : Room num) (env : RoomEnv num) (devices : list Device)
  (boosts : gmap string Boost) (cache : gmap string RelayState).


End ScheduleClaims.


(** ** Thermostat mode *)

Section ThermostatClaims.
Context {num : Type} {NUM : JsNumber num}.
Implicit Types (room : Room num) (env : RoomEnv num) (devices : list Device)
  (boosts : gmap string Boost) (cache : gmap string RelayState).


End ThermostatClaims.


(** ** A whole run: planning, boosts, and the thermostat fail-safe *)

Section TickPlan.
Context {num : Type} {NUM : JsNumber num}.
Implicit Types (room : Room num) (rooms : list (Room num)) (devices : list Device)
  (w : World num) (st : LoopState).

(** What a run plans for a radiator is what the last room listing it wants. *)
Lemma plannedCommands_get devices rooms w st i room R :
  rooms !! i = Some room ->
  R ∈ radiatorDeviceIds room ->
  Forall (fun later => R ∉ radiatorDeviceIds later) (drop (S i) rooms) ->
  JsObject.get (plannedCommands devices rooms w st) R =
    Some (roomDesired devices (pruneBoosts (dateNow w) (activeBoosts st))
            (lastCommandedRadiatorState st) (roomEnv w i) room R).
Proof.
  intros Hi HR Hlater. unfold plannedCommands.
  rewrite <- (take_drop_middle rooms i room Hi).
  rewrite planRooms_get_last by done.
  rewrite length_take_le; [done|].
  apply lookup_lt_Some in Hi. lia.
Qed.

Lemma plannedCommands_is_Some devices rooms w st room R :
  room ∈ rooms -> R ∈ radiatorDeviceIds room ->
  is_Some (JsObject.get (plannedCommands devices rooms w st) R).
Proof. intros. unfold plannedCommands. by eapply planRooms_is_Some. Qed.

Lemma plannedCommands_keys_NoDup devices rooms w st :
  NoDup (JsObject.keys (plannedCommands devices rooms w st)).
Proof. unfold plannedCommands. apply planRooms_keys_NoDup. constructor. Qed.

(** In a whole run the boost decides the planned state of a radiator as
    long as no room processed later lists the same radiator. *)
Lemma boost_wins_in_run devices rooms w st i room boost R :
  rooms !! i = Some room ->
  R ∈ radiatorDeviceIds room ->
  Forall (fun later => R ∉ radiatorDeviceIds later) (drop (S i) rooms) ->
  activeBoosts st !! roomId room = Some boost ->
  (dateNow w < until boost)%Z ->
  R ∈ radiatorIds boost ->
  JsObject.get (plannedCommands devices rooms w st) R = Some on.
Proof.
  intros Hi HR Hlater Hb Hlive Hcov.
  rewrite (plannedCommands_get devices rooms w st i room R Hi HR Hlater).
  f_equal. unfold roomDesired. apply desired_boosted.
  apply isRadiatorBoosted_pruned. by exists boost.
Qed.



End TickPlan.



(** ** The dispatch phase *)

Section DispatchFacts.
Implicit Types (devices : list Device) (relay : Device -> bool -> bool)
  (cache : gmap string RelayState) (cmds : list (string * RelayState))
  (k : string) (v : RelayState) (events : list Event).

Lemma dispatchOne_events devices relay cache k v :
  Forall (fun e => eventDevice e = k) (dispatchOne devices relay cache k v).2.
Proof.
  unfold dispatchOne. destruct (findDeviceById devices k); simpl.
  - case_bool_decide; [destruct (relay _ _)|]; simpl; repeat constructor.
  - repeat constructor.
Qed.

Lemma dispatchOne_cache_ne devices relay cache k v k' :
  k ≠ k' -> (dispatchOne devices relay cache k v).1 !! k' = cache !! k'.
Proof.
  intros Hne. unfold dispatchOne. destruct (findDeviceById devices k); simpl; [|done].
  case_bool_decide; [destruct (relay _ _)|]; simpl; try done.
  by apply lookup_insert_ne.
Qed.

(** One step reads the cache only at its own device id. *)
Lemma dispatchOne_local devices relay cache1 cache2 k v :
  cache1 !! k = cache2 !! k ->
  (dispatchOne devices relay cache1 k v).1 !! k
    = (dispatchOne devices relay cache2 k v).1 !! k
  /\ (dispatchOne devices relay cache1 k v).2 = (dispatchOne devices relay cache2 k v).2.
Proof.
  intros Heq. unfold dispatchOne. destruct (findDeviceById devices k); simpl; [|done].
  rewrite Heq. case_bool_decide; [destruct (relay _ _)|]; simpl; try done.
  by rewrite !lookup_insert_eq.
Qed.

Lemma filter_about_all k events :
  Forall (fun e => eventDevice e = k) events -> List.filter (aboutDevice k) events = events.
Proof.
  induction 1 as [|e events He _ IH]; simpl; [done|].
  unfold aboutDevice at 1. rewrite bool_decide_eq_true_2 by done. by rewrite IH.
Qed.

Lemma filter_about_none k k' events :
  k' ≠ k -> Forall (fun e => eventDevice e = k') events ->
  List.filter (aboutDevice k) events = [].
Proof.
  intros Hne. induction 1 as [|e events He _ IH]; simpl; [done|].
  unfold aboutDevice at 1. rewrite bool_decide_eq_false_2 by congruence. done.
Qed.

Lemma dispatch_untouched devices relay cmds k : forall cache,
  k ∉ JsObject.keys cmds ->
  (dispatch devices relay cmds cache).1 !! k = cache !! k
  /\ List.filter (aboutDevice k) (dispatch devices relay cmds cache).2 = [].
Proof.
  unfold JsObject.keys.
  induction cmds as [|[k0 v0] cmds IH]; intros cache Hk; simpl; [done|].
  rewrite fmap_cons, not_elem_of_cons in Hk. destruct Hk as [Hne Hk]. simpl in Hne.
  destruct (dispatchOne devices relay cache k0 v0) as [cache1 ev1] eqn:Hone.
  destruct (dispatch devices relay cmds cache1) as [cache2 ev2] eqn:Hrest.
  simpl. destruct (IH cache1 Hk) as [Hc He]. rewrite Hrest in Hc, He. simpl in *.
  split.
  - rewrite Hc. replace cache1 with (dispatchOne devices relay cache k0 v0).1
      by (by rewrite Hone).
    by apply dispatchOne_cache_ne.
  - rewrite List.filter_app, He, app_nil_r.
    apply filter_about_none with k0; [done|].
    replace ev1 with (dispatchOne devices relay cache k0 v0).2 by (by rewrite Hone).
    apply dispatchOne_events.
Qed.

(** With distinct keys, what the whole loop does to one device id is what
    that id's own iteration does, whatever the order of enumeration. *)
Lemma dispatch_at devices relay cmds k v : forall cache,
  NoDup (JsObject.keys cmds) -> (k, v) ∈ cmds ->
  (dispatch devices relay cmds cache).1 !! k
    = (dispatchOne devices relay cache k v).1 !! k
  /\ List.filter (aboutDevice k) (dispatch devices relay cmds cache).2
     = (dispatchOne devices relay cache k v).2.
Proof.
  unfold JsObject.keys.
  induction cmds as [|[k0 v0] cmds IH]; intros cache Hnd Hin; simpl.
  - by apply elem_of_nil in Hin.
  - rewrite fmap_cons in Hnd. apply NoDup_cons in Hnd as [Hk0 Hnd]. simpl in Hk0.
    destruct (dispatchOne devices relay cache k0 v0) as [cache1 ev1] eqn:Hone.
    destruct (dispatch devices relay cmds cache1) as [cache2 ev2] eqn:Hrest.
    simpl. rewrite List.filter_app.
    apply elem_of_cons in Hin as [Heq|Hin].
    + injection Heq as -> ->.
      destruct (dispatch_untouched devices relay cmds k0 cache1 Hk0) as [Hc He].
      rewrite Hrest in Hc, He. simpl in *. rewrite Hc, He, app_nil_r, Hone. simpl.
      split; [done|]. apply filter_about_all.
      replace ev1 with (dispatchOne devices relay cache k0 v0).2 by (by rewrite Hone).
      apply dispatchOne_events.
    + assert (Hne : k0 ≠ k).
      { intros ->. apply Hk0. apply list_elem_of_fmap. by exists (k, v). }
      destruct (IH cache1 Hnd Hin) as [Hc He].
      rewrite Hrest in Hc, He. simpl in *.
      assert (Hsame : cache1 !! k = cache !! k).
      { replace cache1 with (dispatchOne devices relay cache k0 v0).1
          by (by rewrite Hone).
        by apply dispatchOne_cache_ne. }
      destruct (dispatchOne_local devices relay cache1 cache k v Hsame) as [Hl1 Hl2].
      rewrite Hc, He, Hl1, Hl2. split; [done|].
      rewrite (filter_about_none k k0 ev1); [done | done |].
      replace ev1 with (dispatchOne devices relay cache k0 v0).2 by (by rewrite Hone).
      apply dispatchOne_events.
Qed.

Lemma relayCalls_about k events :
  relayCalls k events = relayCalls k (List.filter (aboutDevice k) events).
Proof.
  unfold relayCalls. induction events as [|e events IH]; simpl; [done|].
  unfold aboutDevice at 1.
  destruct e as [d|d dev t|d s]; simpl; case_bool_decide; simpl;
    rewrite ?bool_decide_eq_true_2, ?bool_decide_eq_false_2 by done; by rewrite IH.
Qed.

Lemma elem_of_about k e events :
  eventDevice e = k -> e ∈ events <-> e ∈ List.filter (aboutDevice k) events.
Proof.
  intros He. rewrite !list_elem_of_In, filter_In. unfold aboutDevice.
  rewrite bool_decide_eq_true. tauto.
Qed.

End DispatchFacts.

(** ** A whole run: dispatch *)

Section TickDispatch.
Context {num : Type} {NUM : JsNumber num}.
Implicit Types (room : Room num) (rooms : list (Room num)) (devices : list Device)
  (w : World num) (st : LoopState).

(** In a whole run, a planned device id is handled by exactly its own
    dispatch iteration, run on the cache the run started with. *)
Lemma heatingControlLoop_at devices rooms w st k v :
  JsObject.get (plannedCommands devices rooms w st) k = Some v ->
  let step := dispatchOne devices (setRelay w) (lastCommandedRadiatorState st) k v in
  lastCommandedRadiatorState (heatingControlLoop devices rooms w st).1 !! k = step.1 !! k
  /\ List.filter (aboutDevice k) (heatingControlLoop devices rooms w st).2 = step.2.
Proof.
  intros Hget step. unfold heatingControlLoop.
  pose proof (dispatch_at devices (setRelay w)
                (JsObject.forIn (plannedCommands devices rooms w st)) k v
                (lastCommandedRadiatorState st)) as Hat.
  destruct (dispatch devices (setRelay w)
              (JsObject.forIn (plannedCommands devices rooms w st))
              (lastCommandedRadiatorState st)) as [cache' events].
  simpl in *. apply Hat.
  - apply JsObjectFacts.forIn_keys_NoDup, plannedCommands_keys_NoDup.
  - apply JsObjectFacts.forIn_elem. by apply JsObjectFacts.get_Some_elem.
Qed.

Lemma heatingControlLoop_boosts devices rooms w st :
  activeBoosts (heatingControlLoop devices rooms w st).1
    = pruneBoosts (dateNow w) (activeBoosts st).
Proof.
  unfold heatingControlLoop. by destruct (dispatch _ _ _ _).
Qed.



End TickDispatch.





(** ** The boost store *)

Section BoostFacts.
Context {num : Type}.
Implicit Types (rooms : list (Room num)) (room : Room num)
  (boosts : gmap string Boost) (rid : string).

Lemma find_room_first rooms rid pre room post :
  rooms = pre ++ room :: post ->
  roomId room = rid ->
  Forall (fun r => roomId r ≠ rid) pre ->
  List.find (fun r => bool_decide (roomId r = rid)) rooms = Some room.
Proof.
  intros -> Hid Hpre. induction Hpre as [|r pre Hr _ IH]; simpl.
  - by rewrite bool_decide_eq_true_2.
  - by rewrite bool_decide_eq_false_2.
Qed.

Lemma find_room_none rooms rid :
  Forall (fun r => roomId r ≠ rid) rooms ->
  List.find (fun r => bool_decide (roomId r = rid)) rooms = None.
Proof.
  induction 1 as [|r rooms Hr _ IH]; simpl; [done|].
  by rewrite bool_decide_eq_false_2.
Qed.

Lemma startBoost_store rooms now boosts rid minutes requested :
  let result := startBoost rooms now boosts rid minutes requested in
  result.2 = boosts
  \/ exists boost, result.2 = <[rid := boost]> boosts.
Proof.
  unfold startBoost. destruct minutes as [d|]; [|by left].
  case_bool_decide; [by left|].
  destruct (List.find _ rooms) as [room|]; [|by left].
  destruct requested as [[|i ids]|]; simpl; try (right; by eexists).
  case_bool_decide; simpl; [by left | right; by eexists].
Qed.

Lemma storeStep_absent boosts rid (c : Z * StoreCall num) :
  ~ startsBoostFor rid c ->
  boosts !! rid = None ->
  storeStep boosts c !! rid = None.
Proof.
  intros Hc Habs. unfold storeStep, startsBoostFor in *.
  destruct c as [t [rs rid' minutes requested | rid' | rid' | |]]; simpl in *.
  - destruct (startBoost_store rs t boosts rid' minutes requested) as [->|[b ->]];
      [done|]. by rewrite lookup_insert_ne.
  - unfold cancelBoost. destruct (boosts !! rid'); simpl; [|done].
    rewrite lookup_delete. by case_decide.
  - unfold boostStatus. destruct (boosts !! rid'); simpl; [|done].
    case_bool_decide; simpl; [|done]. rewrite lookup_delete. by case_decide.
  - apply map_lookup_filter_None. by left.
  - apply map_lookup_filter_None. by left.
Qed.

Lemma storeRun_absent (calls : list (Z * StoreCall num)) : forall boosts rid,
  Forall (fun c => ~ startsBoostFor rid c) calls ->
  boosts !! rid = None ->
  storeRun boosts calls !! rid = None.
Proof.
  unfold storeRun.
  induction calls as [|c calls IH]; intros boosts rid Hall Habs; simpl; [done|].
  apply Forall_cons in Hall as [Hc Hall].
  apply IH; [done|]. by apply storeStep_absent.
Qed.

End BoostFacts.


Section BoostClaims.
Context {num : Type} {NUM : JsNumber num}.
Implicit Types (rooms : list (Room num)) (room : Room num)
  (boosts : gmap string Boost) (rid : string).




End BoostClaims.




(** ** Whole runs and the scenarios *)

(** ** The scenarios of the specification *)

(** Room r1 on Monday: at 10:00 a is on and b off, at 18:00 both are off. *)
Example scenario_schedule :
  processRoom Sample.devices ∅ ∅ (mkRoomEnv (Sample.monday 10 0) Sample.silent) Sample.r1
    = [("a", on); ("b", off)]
  /\ processRoom Sample.devices ∅ ∅ (mkRoomEnv (Sample.monday 18 0) Sample.silent) Sample.r1
     = [("a", off); ("b", off)].
Proof. split; vm_compute; reflexivity. Qed.

(** Room r2 over three runs: 18.5 degrees turns c on; 21.5 turns it off;
    20.0, inside the band, keeps the last commanded state (off, or on). *)
Example scenario_thermostat :
  let env t := mkRoomEnv (Sample.monday 10 0) (Sample.reads t) in
  processRoom Sample.devices ∅ ∅ (env 185%Z) Sample.r2 = [("c", on)]
  /\ processRoom Sample.devices ∅ {[ "c" := on ]} (env 215%Z) Sample.r2 = [("c", off)]
  /\ processRoom Sample.devices ∅ {[ "c" := off ]} (env 200%Z) Sample.r2 = [("c", off)]
  /\ processRoom Sample.devices ∅ {[ "c" := on ]} (env 200%Z) Sample.r2 = [("c", on)].
Proof. repeat split; vm_compute; reflexivity. Qed.

(** Two runs of the whole loop for r1 and r2: the first switches a and c
    on, the second, with the same readings, sends nothing. *)
Example scenario_two_runs :
  let w := mkWorld 0 (fun _ => mkRoomEnv (Sample.monday 10 0) (Sample.reads 185))
                   (fun _ _ => true) in
  let run1 := heatingControlLoop Sample.devices [Sample.r1; Sample.r2] w
                (mkLoopState ∅ ∅) in
  let run2 := heatingControlLoop Sample.devices [Sample.r1; Sample.r2] w run1.1 in
  run1.2 = [SwitchSet "a" Sample.relayA true; SwitchSet "b" Sample.relayB false;
            SwitchSet "c" Sample.relayC true]
  /\ run2.2 = [].
Proof. split; vm_compute; reflexivity. Qed.

(** When two rooms list the same radiator, the assignment of the room
    processed last is the one left in the command object: r1 is boosted,
    but "hall", processed after it at 18:00, wants a and b off. *)
Example scenario_shared_radiator :
  let w := mkWorld 2000 (fun _ => mkRoomEnv (Sample.monday 18 0) Sample.silent)
                   (fun _ _ => true) in
  let st := mkLoopState {[ "r1" := mkBoost 1801000 ["a"; "b"] ]} ∅ in
  plannedCommands Sample.devices [Sample.r1] w st = [("a", on); ("b", on)]
  /\ plannedCommands Sample.devices [Sample.r1; Sample.overlapping] w st
     = [("a", off); ("b", off)].
Proof. split; vm_compute; reflexivity. Qed.


(** ** More on the planning phase *)

Section PlanDomain.
Context {num : Type} {NUM : JsNumber num}.
Implicit Types (room : Room num) (rooms : list (Room num)) (devices : list Device)
  (w : World num) (st : LoopState).

Lemma dispatch_events_planned devices relay cmds : forall cache,
  Forall (fun e => eventDevice e ∈ JsObject.keys cmds)
         (dispatch devices relay cmds cache).2.
Proof.
  unfold JsObject.keys.
  induction cmds as [|[k v] cmds IH]; intros cache; simpl; [constructor|].
  pose proof (dispatchOne_events devices relay cache k v) as Hone.
  destruct (dispatchOne devices relay cache k v) as [cache1 ev1].
  specialize (IH cache1).
  destruct (dispatch devices relay cmds cache1) as [cache2 ev2]. simpl in *.
  apply Forall_app. split.
  - eapply Forall_impl; [exact Hone|]. intros e ->. by left.
  - eapply Forall_impl; [exact IH|]. intros e He. by right.
Qed.

Lemma plannedCommands_planned_iff devices rooms w st k :
  is_Some (JsObject.get (plannedCommands devices rooms w st) k) <->
  exists room, room ∈ rooms /\ k ∈ radiatorDeviceIds room.
Proof.
  split.
  - intros Hsome.
    destruct (decide (Exists (fun room => k ∈ radiatorDeviceIds room) rooms))
      as [Hex|Hnone].
    + apply Exists_exists in Hex as (room & ? & ?). by exists room.
    + exfalso. apply not_Exists_Forall in Hnone; [|intros; apply _].
      unfold plannedCommands in Hsome.
      rewrite planRooms_get_other in Hsome by done.
      simpl in Hsome. by destruct Hsome.
  - intros (room & Hroom & Hk). by eapply plannedCommands_is_Some.
Qed.


(** A device id the run did not plan keeps its cache entry. *)
Lemma heatingControlLoop_unplanned devices rooms w st k :
  JsObject.get (plannedCommands devices rooms w st) k = None ->
  lastCommandedRadiatorState (heatingControlLoop devices rooms w st).1 !! k
    = lastCommandedRadiatorState st !! k
  /\ List.filter (aboutDevice k) (heatingControlLoop devices rooms w st).2 = [].
Proof.
  intros Hnone. unfold heatingControlLoop.
  pose proof (dispatch_untouched devices (setRelay w)
                (JsObject.forIn (plannedCommands devices rooms w st)) k
                (lastCommandedRadiatorState st)) as Hun.
  destruct (dispatch _ _ _ _) as [cache' events]. simpl in *. apply Hun.
  unfold JsObject.keys. rewrite JsObjectFacts.forIn_Permutation.
  intros Hin. apply JsObjectFacts.get_is_Some in Hin. rewrite Hnone in Hin.
  by destruct Hin.
Qed.

(** X2. In one run at most one relay call is made for any device id, and a
    call is only ever made to a registered device, with the state the run
    planned for it. *)
Theorem at_most_one_call_per_device devices rooms w st k :
  length (relayCalls k (heatingControlLoop devices rooms w st).2) <= 1
  /\ (forall d dev turnOn,
        SwitchSet d dev turnOn ∈ (heatingControlLoop devices rooms w st).2 ->
        findDeviceById devices d = Some dev
        /\ exists desired,
             JsObject.get (plannedCommands devices rooms w st) d = Some desired
             /\ turnOn = bool_decide (desired = on)
             /\ lastCommandedRadiatorState st !! d ≠ Some desired).
Proof.
  split.
  - rewrite relayCalls_about.
    destruct (JsObject.get (plannedCommands devices rooms w st) k) as [v|] eqn:Hk.
    + destruct (heatingControlLoop_at devices rooms w st k v Hk) as [_ ->].
      unfold dispatchOne. destruct (findDeviceById devices k); [|simpl; lia].
      case_bool_decide; [|simpl; lia].
      destruct (setRelay w _ _); unfold relayCalls; simpl;
        rewrite bool_decide_eq_true_2 by done; simpl; lia.
    + destruct (heatingControlLoop_unplanned devices rooms w st k Hk) as [_ ->].
      simpl. lia.
  - intros d dev turnOn Hin.
    apply (elem_of_about d) in Hin; [|done].
    destruct (JsObject.get (plannedCommands devices rooms w st) d) as [v|] eqn:Hd.
    + destruct (heatingControlLoop_at devices rooms w st d v Hd) as [_ Hev].
      rewrite Hev in Hin. unfold dispatchOne in Hin.
      destruct (findDeviceById devices d) as [dev'|] eqn:Hdev.
      * case_bool_decide as Hdiff; [|by apply elem_of_nil in Hin].
        assert (SwitchSet d dev turnOn = SwitchSet d dev' (bool_decide (v = on)))
          as Heq.
        { destruct (setRelay w dev' _).
          - by apply list_elem_of_singleton in Hin.
          - apply elem_of_cons in Hin as [Hin|Hin]; [done|].
            apply list_elem_of_singleton in Hin. discriminate. }
        injection Heq as -> ->. split; [done|]. by exists v.
      * apply list_elem_of_singleton in Hin. discriminate.
    + destruct (heatingControlLoop_unplanned devices rooms w st d Hd) as [_ Hev].
      rewrite Hev in Hin. by apply elem_of_nil in Hin.
Qed.

End PlanDomain.


Section DecisionTable.
Context {num : Type} {NUM : JsNumber num}.
Implicit Types (room : Room num) (env : RoomEnv num) (devices : list Device)
  (boosts : gmap string Boost) (cache : gmap string RelayState).


(** X4. Outside thermostat mode a room's iteration reads neither the device
    registry, nor the cache, nor the sensor, nor the room's target and
    hysteresis: with the same clock, boosts, radiators, mode and schedule it
    assigns the same states. *)
Theorem only_thermostat_reads_sensor devices1 devices2 boosts cache1 cache2
    env1 env2 room1 room2 :
  controlMode room1 ≠ "thermostat" ->
  clock env1 = clock env2 ->
  roomId room1 = roomId room2 ->
  radiatorDeviceIds room1 = radiatorDeviceIds room2 ->
  controlMode room1 = controlMode room2 ->
  schedule room1 = schedule room2 ->
  processRoom devices1 boosts cache1 env1 room1
    = processRoom devices2 boosts cache2 env2 room2.
Proof.
  intros Hmode Hclock Hid Hrads Hm Hsched.
  unfold processRoom. rewrite <- Hrads. apply map_ext. intros R. f_equal.
  unfold roomDesired, activeSlotOf, todaysSchedule.
  rewrite <- Hclock, <- Hid, <- Hsched.
  rewrite !heatingNeeded_not_thermostat by congruence.
  unfold desiredRadiatorState. by rewrite <- Hm.
Qed.

End DecisionTable.


Lemma only_thermostat_reads_sensor_witness :
  processRoom Sample.devices ∅ ∅ (mkRoomEnv (Sample.monday 10 0) Sample.silent) Sample.r1
  = processRoom [] ∅ {[ "a" := off ]}
      (mkRoomEnv (Sample.monday 10 0) (Sample.reads 300)) Sample.r1.
Proof.
  apply only_thermostat_reads_sensor; (reflexivity || discriminate).
Defined.


(** ** Successive runs *)

Section SuccessiveRuns.
Context {num : Type} {NUM : JsNumber num}.
Implicit Types (room : Room num) (rooms : list (Room num)) (devices : list Device)
  (w : World num) (st : LoopState).

(** X5. The cache only learns states that were sent: after a run, an entry
    that differs from the one before is the state planned for a registered
    device whose relay call, made in this run, succeeded. *)
Theorem cache_learns_only_sent_states devices rooms w st k v :
  lastCommandedRadiatorState (heatingControlLoop devices rooms w st).1 !! k = Some v ->
  lastCommandedRadiatorState st !! k = Some v
  \/ exists dev,
       JsObject.get (plannedCommands devices rooms w st) k = Some v
       /\ findDeviceById devices k = Some dev
       /\ setRelay w dev (bool_decide (v = on)) = true
       /\ SwitchSet k dev (bool_decide (v = on))
            ∈ (heatingControlLoop devices rooms w st).2.
Proof.
  intros Hafter.
  destruct (JsObject.get (plannedCommands devices rooms w st) k) as [p|] eqn:Hk.
  - destruct (heatingControlLoop_at devices rooms w st k p Hk) as [Hcache Hev].
    rewrite Hcache in Hafter. unfold dispatchOne in Hafter, Hev.
    destruct (findDeviceById devices k) as [dev|] eqn:Hdev; [|by left].
    case_bool_decide as Hdiff; [|by left].
    destruct (setRelay w dev (bool_decide (p = on))) eqn:Hok; [|by left].
    simpl in Hafter. rewrite lookup_insert_eq in Hafter. injection Hafter as ->.
    right. exists dev. split; [done|]. split; [done|]. split; [done|].
    apply (elem_of_about k); [done|]. rewrite Hev. by left.
  - destruct (heatingControlLoop_unplanned devices rooms w st k Hk) as [Hcache _].
    left. by rewrite <- Hcache.
Qed.

(** X6. When every relay call of a run succeeds and the next run plans the
    same commands, the next run makes no relay call at all and leaves the
    cache as it is. *)
Theorem settled_run_sends_nothing devices rooms w1 w2 st :
  (forall dev turnOn, setRelay w1 dev turnOn = true) ->
  let st1 := (heatingControlLoop devices rooms w1 st).1 in
  plannedCommands devices rooms w2 st1 = plannedCommands devices rooms w1 st ->
  (forall k, relayCalls k (heatingControlLoop devices rooms w2 st1).2 = [])
  /\ lastCommandedRadiatorState (heatingControlLoop devices rooms w2 st1).1
     = lastCommandedRadiatorState st1.
Proof.
  intros Hok st1 Hsame.
  assert (Hkey : forall k,
    lastCommandedRadiatorState (heatingControlLoop devices rooms w2 st1).1 !! k
      = lastCommandedRadiatorState st1 !! k
    /\ relayCalls k (heatingControlLoop devices rooms w2 st1).2 = []).
  { intros k. rewrite relayCalls_about.
    destruct (JsObject.get (plannedCommands devices rooms w1 st) k) as [v|] eqn:Hk.
    - assert (Hk2 : JsObject.get (plannedCommands devices rooms w2 st1) k = Some v)
        by (by rewrite Hsame).
      destruct (heatingControlLoop_at devices rooms w2 st1 k v Hk2) as [-> ->].
      destruct (heatingControlLoop_at devices rooms w1 st k v Hk) as [Hc1 _].
      fold st1 in Hc1. unfold dispatchOne in *.
      destruct (findDeviceById devices k) as [dev|]; [|done].
      destruct (decide (lastCommandedRadiatorState st1 !! k = Some v)) as [Heq|Hne].
      + rewrite bool_decide_eq_false_2 by (by intros ?). done.
      + exfalso. apply Hne. rewrite Hc1.
        case_bool_decide as Hdiff.
        * rewrite Hok. simpl. by rewrite lookup_insert_eq.
        * simpl.
          destruct (decide (lastCommandedRadiatorState st !! k = Some v))
            as [?|Hn]; [done | by destruct Hdiff].
    - assert (Hk2 : JsObject.get (plannedCommands devices rooms w2 st1) k = None)
        by (by rewrite Hsame).
      by destruct (heatingControlLoop_unplanned devices rooms w2 st1 k Hk2) as [-> ->]. }
  split; [intros k; apply Hkey|]. apply map_eq. intros k. apply Hkey.
Qed.

(** X7. A relay call that fails is made again: when the call for a device
    fails in one run and the next run plans the same state for it, the next
    run calls the relay again. *)
Theorem failed_call_is_retried devices rooms w1 w2 st k v dev :
  JsObject.get (plannedCommands devices rooms w1 st) k = Some v ->
  findDeviceById devices k = Some dev ->
  lastCommandedRadiatorState st !! k ≠ Some v ->
  setRelay w1 dev (bool_decide (v = on)) = false ->
  let st1 := (heatingControlLoop devices rooms w1 st).1 in
  JsObject.get (plannedCommands devices rooms w2 st1) k = Some v ->
  lastCommandedRadiatorState st1 !! k = lastCommandedRadiatorState st !! k
  /\ relayCalls k (heatingControlLoop devices rooms w2 st1).2
     = [SwitchSet k dev (bool_decide (v = on))].
Proof.
  intros Hk Hdev Hdiff Hfail st1 Hk2.
  destruct (heatingControlLoop_at devices rooms w1 st k v Hk) as [Hc1 _].
  fold st1 in Hc1. unfold dispatchOne in Hc1. rewrite Hdev in Hc1.
  rewrite bool_decide_eq_true_2 in Hc1 by done. rewrite Hfail in Hc1. simpl in Hc1.
  split; [done|].
  destruct (heatingControlLoop_at devices rooms w2 st1 k v Hk2) as [_ Hev].
  rewrite relayCalls_about, Hev. unfold dispatchOne. rewrite Hdev.
  rewrite bool_decide_eq_true_2 by (by rewrite Hc1).
  destruct (setRelay w2 dev _); unfold relayCalls; simpl;
    by rewrite bool_decide_eq_true_2.
Qed.

End SuccessiveRuns.

Lemma cache_learns_only_sent_states_witness :
  JsObject.get (plannedCommands Sample.devices [Sample.r1] (Extra.world true)
                  (mkLoopState ∅ ∅)) "a" = Some on.
Proof.
  assert (Hafter : lastCommandedRadiatorState
            (heatingControlLoop Sample.devices [Sample.r1] (Extra.world true)
               (mkLoopState ∅ ∅)).1 !! "a" = Some on) by (vm_compute; reflexivity).
  destruct (cache_learns_only_sent_states Sample.devices [Sample.r1] (Extra.world true)
              (mkLoopState ∅ ∅) "a" on Hafter) as [Hold|(dev & Hplan & _)].
  - simpl in Hold. discriminate.
  - exact Hplan.
Defined.

Lemma settled_run_sends_nothing_witness :
  relayCalls "a"
    (heatingControlLoop Sample.devices [Sample.r1] (Extra.world false)
       (heatingControlLoop Sample.devices [Sample.r1] (Extra.world true)
          (mkLoopState ∅ ∅)).1).2 = [].
Proof.
  assert (Hok : forall dev turnOn, setRelay (Extra.world true) dev turnOn = true)
    by reflexivity.
  destruct (settled_run_sends_nothing Sample.devices [Sample.r1]
              (Extra.world true) (Extra.world false) (mkLoopState ∅ ∅) Hok) as [Hquiet _].
  - vm_compute. reflexivity.
  - apply Hquiet.
Defined.

Lemma failed_call_is_retried_witness :
  relayCalls "a"
    (heatingControlLoop Sample.devices [Sample.r1] (Extra.world true)
       (heatingControlLoop Sample.devices [Sample.r1] (Extra.world false)
          (mkLoopState ∅ ∅)).1).2 = [SwitchSet "a" Sample.relayA true].
Proof.
  assert (Hk : JsObject.get (plannedCommands Sample.devices [Sample.r1] (Extra.world false)
                  (mkLoopState ∅ ∅)) "a" = Some on) by (vm_compute; reflexivity).
  assert (Hdev : findDeviceById Sample.devices "a" = Some Sample.relayA)
    by (vm_compute; reflexivity).
  assert (Hdiff : lastCommandedRadiatorState (mkLoopState ∅ ∅) !! "a" ≠ Some on)
    by (simpl; discriminate).
  destruct (failed_call_is_retried Sample.devices [Sample.r1] (Extra.world false)
              (Extra.world true) (mkLoopState ∅ ∅) "a" on Sample.relayA
              Hk Hdev Hdiff eq_refl) as [_ Hagain].
  - vm_compute. reflexivity.
  - exact Hagain.
Defined.


(** ** The clock strings *)

Lemma string_length_app s t :
  String.length (s +:+ t) = String.length s + String.length t.
Proof. induction s as [|c s IH]; simpl; [done | by rewrite IH]. Qed.

Lemma hhmm_length h m : h < 100 -> m < 100 -> String.length (hhmm h m) = 5.
Proof.
  intros Hh Hm. unfold hhmm. rewrite !string_length_app, !pad2_length by done. done.
Qed.

(** X8. For wall-clock times (hours below 24, minutes below 60) the
    string the loop builds has five characters, two times give the same
    string only when they agree in hours and minutes, and the order of the
    strings is the order of the times; the day key is defined for the seven
    values of getDay and differs from day to day. *)
Theorem currentTime_faithful (a b : LocalTime) :
  getHours a < 24 -> getMinutes a < 60 ->
  getHours b < 24 -> getMinutes b < 60 ->
  getDay a < 7 -> getDay b < 7 ->
  String.length (currentTime a) = 5
  /\ (currentTime a = currentTime b <->
        getHours a = getHours b /\ getMinutes a = getMinutes b)
  /\ (JsString.lt (currentTime a) (currentTime b) = true <->
        getHours a * 60 + getMinutes a < getHours b * 60 + getMinutes b)
  /\ is_Some (dayOfWeek a)
  /\ (dayOfWeek a = dayOfWeek b <-> getDay a = getDay b).
Proof.
  intros Hha Hma Hhb Hmb Hda Hdb. unfold currentTime.
  split; [apply hhmm_length; lia|]. split; [|split; [|split]].
  - split.
    + intros Heq.
      pose proof (hhmm_compare (getHours a) (getMinutes a) (getHours b) (getMinutes b)
                    ltac:(lia) ltac:(lia) Hma Hmb) as Hc.
      rewrite Heq, string_compare_refl in Hc. symmetry in Hc.
      apply Nat.compare_eq in Hc. split; [nia | lia].
    + by intros [-> ->].
  - apply hhmm_lt; lia.
  - unfold dayOfWeek. apply lookup_lt_is_Some. simpl. lia.
  - unfold dayOfWeek. split; [|by intros ->].
    destruct a as [da ? ?], b as [db ? ?]. simpl in *.
    do 7 (destruct da as [|da]; [do 7 (destruct db as [|db]; try done); lia|]).
    lia.
Qed.

Lemma currentTime_faithful_witness :
  JsString.lt (currentTime (mkLocalTime 1 9 59)) (currentTime (mkLocalTime 3 10 0)) = true.
Proof.
  apply (currentTime_faithful (mkLocalTime 1 9 59) (mkLocalTime 3 10 0));
    simpl; lia.
Defined.


(** ** More on the boost store *)

Lemma ceilMinutes_bounds (ms : Z) :
  ((ceilMinutes ms - 1) * 60000 < ms <= ceilMinutes ms * 60000)%Z.
Proof.
  unfold ceilMinutes.
  pose proof (Z.div_mod (- ms) 60000 ltac:(lia)) as Hdm.
  pose proof (Z.mod_pos_bound (- ms) 60000 ltac:(lia)) as Hb.
  lia.
Qed.

Section BoostQueries.
Context {num : Type}.
Implicit Types (boosts : gmap string Boost) (rid : string) (now : Z).



(** X11. Clean-ups compose: cleaning at one time and then at another leaves
    what one clean-up at the later of the two times leaves; in particular
    cleaning twice at the same time changes nothing more, and a clean-up
    never adds or alters an entry. *)
Theorem pruneBoosts_compose (t1 t2 : Z) boosts :
  pruneBoosts t2 (pruneBoosts t1 boosts) = pruneBoosts (Z.max t1 t2) boosts
  /\ pruneBoosts t1 (pruneBoosts t1 boosts) = pruneBoosts t1 boosts
  /\ (forall rid b, pruneBoosts t1 boosts !! rid = Some b -> boosts !! rid = Some b).
Proof.
  assert (Hc : forall a b, pruneBoosts b (pruneBoosts a boosts)
                           = pruneBoosts (Z.max a b) boosts).
  { intros a b. apply map_eq. intros rid.
    destruct (pruneBoosts (Z.max a b) boosts !! rid) as [x|] eqn:Hx.
    - apply pruneBoosts_lookup_Some in Hx as [Hx Hlt].
      apply pruneBoosts_lookup_Some. split; [|lia].
      apply pruneBoosts_lookup_Some. split; [done | lia].
    - apply pruneBoosts_lookup_None. intros y [Hy Hlt]%pruneBoosts_lookup_Some.
      pose proof (proj1 (pruneBoosts_lookup_None _ _ _) Hx y Hy). lia. }
  split; [apply Hc|]. split.
  - rewrite Hc. by rewrite Z.max_id.
  - by intros rid b [? _]%pruneBoosts_lookup_Some.
Qed.

End BoostQueries.


(** ** The life of a boost *)

Section BoostLife.
Context {num : Type} {NUM : JsNumber num}.
Implicit Types (rooms : list (Room num)) (room : Room num)
  (boosts : gmap string Boost) (rid : string).

Lemma find_room_Some rooms rid room :
  List.find (fun r => bool_decide (roomId r = rid)) rooms = Some room ->
  room ∈ rooms /\ roomId room = rid.
Proof.
  intros [Hin Hid]%find_some. split; [by apply list_elem_of_In|].
  by apply bool_decide_eq_true in Hid.
Qed.

(** What a 200 answer of the boost route tells. *)
Lemma startBoost_Json_inv rooms now boosts rid minutes requested started :
  (startBoost rooms now boosts rid minutes requested).1 = Json started ->
  exists d room,
    minutes = Some d /\ (0 < d)%Z
    /\ List.find (fun r => bool_decide (roomId r = rid)) rooms = Some room
    /\ started = mkBoostStarted rid (boostedRadiators started) (now + d * 60 * 1000) d
    /\ boostedRadiators started
       = (if bool_decide (default [] requested = []) then radiatorDeviceIds room
          else List.filter (fun i => bool_decide (i ∈ radiatorDeviceIds room))
                           (default [] requested))
    /\ (startBoost rooms now boosts rid minutes requested).2
       = <[rid := mkBoost (now + d * 60 * 1000) (boostedRadiators started)]> boosts.
Proof.
  unfold startBoost. destruct minutes as [d|]; [|done].
  case_bool_decide as Hd; [done|].
  destruct (List.find _ rooms) as [room|] eqn:Hfind; [|done].
  intros Hjson. exists d, room.
  split; [done|]. split; [lia|]. split; [done|].
  destruct requested as [[|i ids]|]; simpl in *.
  - injection Hjson as <-. done.
  - case_bool_decide as Hlen; [done|]. simpl in Hjson. injection Hjson as <-. done.
  - injection Hjson as <-. done.
Qed.




End BoostLife.




(** ** Lists of entries with an id, as the registries are *)

Section KeyedLists.
Context {A : Type} (key : A -> string).
Implicit Types (l : list A) (k : string) (x y : A).

Lemma find_as_list_find l k :
  List.find (fun x => bool_decide (key x = k)) l
  = snd <$> list_find (fun x => key x = k) l.
Proof.
  induction l as [|x l IH]; simpl; [done|].
  case_bool_decide as Hk.
  - by rewrite decide_True.
  - rewrite decide_False by done. rewrite IH.
    by destruct (list_find _ l) as [[? ?]|].
Qed.

Lemma list_find_key_None l k :
  list_find (fun x => key x = k) l = None <-> k ∉ key <$> l.
Proof.
  rewrite list_find_None, Forall_forall. split.
  - intros Hall (x & -> & Hx)%list_elem_of_fmap. by apply (Hall x).
  - intros Hnot x Hx <-. apply Hnot, list_elem_of_fmap. by exists x.
Qed.

Lemma find_key_None l k :
  List.find (fun x => bool_decide (key x = k)) l = None <-> k ∉ key <$> l.
Proof.
  rewrite find_as_list_find, <- list_find_key_None.
  destruct (list_find _ l) as [[? ?]|]; simpl; split; done.
Qed.

Lemma existsb_key l k :
  existsb (fun x => bool_decide (key x = k)) l = true <-> k ∈ key <$> l.
Proof.
  rewrite existsb_exists, list_elem_of_fmap. split.
  - intros (x & Hin & Hk). exists x. apply bool_decide_eq_true in Hk.
    split; [done | by apply list_elem_of_In].
  - intros (x & -> & Hin). exists x.
    split; [by apply list_elem_of_In | by apply bool_decide_eq_true].
Qed.

Lemma find_key_app_fresh l x :
  key x ∉ key <$> l ->
  List.find (fun y => bool_decide (key y = key x)) (l ++ [x]) = Some x
  /\ forall k, k ≠ key x ->
       List.find (fun y => bool_decide (key y = k)) (l ++ [x])
       = List.find (fun y => bool_decide (key y = k)) l.
Proof.
  intros Hfresh. split.
  - induction l as [|y l IH]; simpl.
    + by rewrite bool_decide_eq_true_2.
    + rewrite fmap_cons, not_elem_of_cons in Hfresh. destruct Hfresh as [Hne Hfresh].
      rewrite bool_decide_eq_false_2 by done. by apply IH.
  - intros k Hk. clear Hfresh. induction l as [|y l IH]; simpl.
    + by rewrite bool_decide_eq_false_2.
    + by rewrite IH.
Qed.

Lemma list_find_insert_same l k i x y :
  list_find (fun z => key z = k) l = Some (i, x) -> key y = k ->
  list_find (fun z => key z = k) (<[i := y]> l) = Some (i, y).
Proof.
  intros (Hi & Hx & Hbefore)%list_find_Some Hy. apply list_find_Some.
  split; [|split; [done|]].
  - apply list_lookup_insert_eq. by eapply lookup_lt_Some.
  - intros j z Hj Hlt. rewrite list_lookup_insert_ne in Hj by lia.
    by apply (Hbefore j).
Qed.

Lemma list_find_insert_other l k k' i x y :
  l !! i = Some x -> key x = k -> key y = k -> k' ≠ k ->
  list_find (fun z => key z = k') (<[i := y]> l)
  = list_find (fun z => key z = k') l.
Proof.
  intros Hi Hx Hy Hne.
  destruct (list_find (fun z => key z = k') l) as [[j z]|] eqn:Hfind.
  - apply list_find_Some in Hfind as (Hj & Hz & Hbefore).
    assert (j ≠ i) by (intros ->; congruence).
    apply list_find_Some. split; [by rewrite list_lookup_insert_ne|].
    split; [done|]. intros j' z' Hj' Hlt.
    destruct (decide (j' = i)) as [->|Hji].
    + rewrite list_lookup_insert_eq in Hj' by (by eapply lookup_lt_Some).
      injection Hj' as <-. congruence.
    + rewrite list_lookup_insert_ne in Hj' by done. by apply (Hbefore j').
  - apply list_find_None in Hfind. apply list_find_None.
    apply Forall_insert; [done | congruence].
Qed.

Lemma keys_insert_same l i x y :
  l !! i = Some x -> key y = key x -> key <$> <[i := y]> l = key <$> l.
Proof.
  intros Hi Hy. rewrite list_fmap_insert, Hy.
  apply list_insert_id. by rewrite list_lookup_fmap, Hi.
Qed.

Lemma keys_filter_ne l k :
  key <$> filter (fun x => key x ≠ k) l = filter (fun k' => k' ≠ k) (key <$> l).
Proof.
  induction l as [|x l IH]; [done|].
  rewrite fmap_cons, !filter_cons. simpl.
  destruct (decide (key x ≠ k)); by rewrite ?fmap_cons, IH.
Qed.

Lemma filter_ne_length l k :
  length (filter (fun x => key x ≠ k) l) = length l <-> k ∉ key <$> l.
Proof.
  induction l as [|x l IH]; [by split; [intros _ ?%elem_of_nil | done]|].
  rewrite filter_cons, fmap_cons, not_elem_of_cons.
  pose proof (length_filter (fun x => key x ≠ k) l) as Hle.
  destruct (decide (key x ≠ k)) as [Hne|Heq]; simpl.
  - split.
    + intros Hlen. split; [done|]. apply IH. lia.
    + intros [_ Hnot]. f_equal. by apply IH.
  - split; [lia|]. intros [Hne _]. destruct Heq. done.
Qed.

Lemma filter_ne_lookup l k k' :
  k' ≠ k ->
  List.find (fun x => bool_decide (key x = k')) (filter (fun x => key x ≠ k) l)
  = List.find (fun x => bool_decide (key x = k')) l.
Proof.
  intros Hne. induction l as [|x l IH]; [done|].
  rewrite filter_cons. destruct (decide (key x ≠ k)) as [Hx|Hx]; simpl.
  - by rewrite IH.
  - rewrite IH. apply dec_stable in Hx.
    rewrite bool_decide_eq_false_2 by congruence. done.
Qed.

End KeyedLists.


(** ** The device registry *)

Section DeviceRegistry.
Implicit Types (devices : list DeviceEntry) (k : string).

Lemma findDeviceById_registered devices k :
  findDeviceById (registered devices) k
  = device <$> List.find (fun d => bool_decide (id (device d) = k)) devices.
Proof.
  unfold findDeviceById, registered.
  induction devices as [|d devices IH]; simpl; [done|].
  by case_bool_decide.
Qed.

Lemma registered_ids devices :
  id <$> registered devices = (fun d => id (device d)) <$> devices.
Proof. unfold registered. by rewrite <- list_fmap_compose. Qed.

Lemma findDeviceById_None devices k :
  findDeviceById (registered devices) k = None
  <-> k ∉ ((fun d => id (device d)) <$> devices).
Proof.
  rewrite findDeviceById_registered.
  rewrite <- (find_key_None (fun d => id (device d))).
  destruct (List.find _ devices); simpl; split; done.
Qed.

Lemma postDevice_cases devices body :
  (exists message,
     postDevice devices body = (Refused 400 message, devices)
     /\ ~ (exists i n a relay,
             bodyId body = Some i /\ bodyName body = Some n /\ bodyIp body = Some a
             /\ bodyRelayIndex body = Given relay /\ (0 <= relay)%Z
             /\ bodyBtSensorId body ≠ Null /\ bodyBtSensorId body ≠ Mistyped))
  \/ (exists i n a relay,
        bodyId body = Some i /\ bodyName body = Some n /\ bodyIp body = Some a
        /\ bodyRelayIndex body = Given relay /\ (0 <= relay)%Z
        /\ bodyBtSensorId body ≠ Null /\ bodyBtSensorId body ≠ Mistyped
        /\ (let entry :=
              mkDeviceEntry n
                (mkDevice i a (Z.to_nat relay)
                   (match bodyBtSensorId body with Given b => Some b | _ => None end)) in
            (i ∈ (fun d => id (device d)) <$> devices
             /\ exists message, postDevice devices body = (Refused 409 message, devices))
            \/ ((i ∉ (fun d => id (device d)) <$> devices)
                /\ postDevice devices body
                   = (Answered 201 entry, devices ++ [entry])))).
Proof.
  unfold postDevice.
  destruct body as [[i|] [n|] [a|] relay bt]; simpl;
    try (left; eexists; split; [reflexivity|];
         intros (? & ? & ? & ? & ? & ? & ? & ? & ?); congruence).
  destruct relay as [| | |relay];
    try (left; eexists; split; [reflexivity|];
         intros (? & ? & ? & ? & ? & ? & ? & ? & ?); congruence).
  case_bool_decide as Hneg.
  { left. eexists. split; [reflexivity|].
    intros (? & ? & ? & r & _ & _ & _ & [= <-] & ? & _). lia. }
  destruct bt as [| | |b];
    try (left; eexists; split; [reflexivity|];
         intros (? & ? & ? & ? & ? & ? & ? & ? & ? & ? & ?); congruence).
  - right. exists i, n, a, relay. repeat (split; [done || lia|]).
    destruct (existsb _ devices) eqn:Hex.
    + left. split; [by apply (existsb_key (fun d => id (device d)))|by eexists].
    + right. split; [|done].
      rewrite <- (existsb_key (fun d => id (device d))). by rewrite Hex.
  - right. exists i, n, a, relay. repeat (split; [done || lia|]).
    destruct (existsb _ devices) eqn:Hex.
    + left. split; [by apply (existsb_key (fun d => id (device d)))|by eexists].
    + right. split; [|done].
      rewrite <- (existsb_key (fun d => id (device d))). by rewrite Hex.
Qed.

(** X15. POST /devices stores a device exactly when id, name, ip and a
    relay index that is a number not below 0 are given, the sensor index is
    absent or a number, and no stored device has the id; the new entry goes
    last, is found by its id, and the devices already stored are found as
    before.  Every refusal (400, or 409 for a taken id) leaves the registry
    as it was. *)
Theorem postDevice_contract devices body :
  let result := postDevice devices body in
  (forall entry code, result.1 = Answered code entry ->
     code = 201
     /\ bodyId body = Some (id (device entry))
     /\ bodyName body = Some (deviceName entry)
     /\ bodyIp body = Some (ip (device entry))
     /\ (exists relay, bodyRelayIndex body = Given relay /\ (0 <= relay)%Z
                       /\ relayIndex (device entry) = Z.to_nat relay)
     /\ (bodyBtSensorId body = Undefined /\ btSensorId (device entry) = None
         \/ exists b, bodyBtSensorId body = Given b
                      /\ btSensorId (device entry) = Some b)
     /\ findDeviceById (registered devices) (id (device entry)) = None
     /\ result.2 = devices ++ [entry]
     /\ findDeviceById (registered result.2) (id (device entry)) = Some (device entry)
     /\ (forall k, k ≠ id (device entry) ->
           findDeviceById (registered result.2) k
           = findDeviceById (registered devices) k))
  /\ (forall code message, result.1 = Refused code message ->
        result.2 = devices /\ (code = 400 \/ code = 409))
  /\ (forall i n a relay, bodyId body = Some i -> bodyName body = Some n ->
        bodyIp body = Some a -> bodyRelayIndex body = Given relay -> (0 <= relay)%Z ->
        bodyBtSensorId body ≠ Null -> bodyBtSensorId body ≠ Mistyped ->
        (is_Some (findDeviceById (registered devices) i) ->
           exists message, result.1 = Refused 409 message)
        /\ (findDeviceById (registered devices) i = None ->
              exists entry, result.1 = Answered 201 entry)).
Proof.
  intros result. unfold result.
  destruct (postDevice_cases devices body)
    as [(m & -> & Hinvalid)
       |(i & n & a & relay & Hi & Hn & Ha & Hr & Hr0 & Hb1 & Hb2
         & [[Hin [m ->]]|[Hfresh ->]])]; simpl.
  - split; [done|]. split; [intros ? ? [= <- <-]; auto|].
    intros i n a relay ? ? ? ? ? ? ?. destruct Hinvalid. by exists i, n, a, relay.
  - split; [done|]. split; [intros ? ? [= <- <-]; auto|].
    intros ? ? ? ? ? ? ? ? ? ? ?. split; [by eexists|].
    intros Hnone. apply findDeviceById_None in Hnone. congruence.
  - split; [|split; [done|]].
    + intros entry code [= <- <-]. simpl.
      destruct (find_key_app_fresh (fun d => id (device d)) devices
                  (mkDeviceEntry n
                     (mkDevice i a (Z.to_nat relay)
                        (match bodyBtSensorId body with
                         | Given b => Some b
                         | _ => None
                         end)))) as [H1 H2]; [done|]. simpl in H1, H2.
      split; [done|]. split; [done|]. split; [done|]. split; [done|].
      split; [by exists relay|].
      split; [destruct (bodyBtSensorId body) as [| | |b];
                [by left | done | done | right; by exists b]|].
      split; [by apply findDeviceById_None|]. split; [done|].
      split; [by rewrite findDeviceById_registered, H1|].
      intros k Hk. by rewrite !findDeviceById_registered, H2.
    + intros ? ? ? ? ? ? ? ? ? ? ?. split; [|by eexists].
      intros Hsome. apply findDeviceById_None in Hfresh.
      simplify_eq. rewrite Hfresh in Hsome. by destruct Hsome.
Qed.

End DeviceRegistry.


Section DeviceRegistryChanges.
Context {num : Type} {NUM : JsNumber num}.
Implicit Types (devices : list DeviceEntry) (k : string).

Lemma deleteDevice_gone devices k :
  findDeviceById (registered (deleteDevice devices k).2) k = None.
Proof.
  unfold deleteDevice.
  pose proof (filter_ne_length (fun d => id (device d)) devices k) as Hlen.
  simpl in Hlen. case_bool_decide as Hsame; simpl.
  - apply findDeviceById_None. by apply Hlen.
  - apply findDeviceById_None.
    rewrite (keys_filter_ne (fun d => id (device d))).
    intros [? _]%list_elem_of_filter. done.
Qed.

(** X16. DELETE /devices/:id answers 404, changing nothing, exactly when no
    stored device has the id; otherwise it answers 204 and removes every
    entry with that id, after which the id is not found, while every other
    id is found as before and the remaining entries keep their order. *)
Theorem deleteDevice_contract devices k :
  let result := deleteDevice devices k in
  (findDeviceById (registered devices) k = None ->
     result = (Refused 404 "Device not found", devices))
  /\ (is_Some (findDeviceById (registered devices) k) ->
        result = (Answered 204 tt, filter (fun d => id (device d) ≠ k) devices))
  /\ findDeviceById (registered result.2) k = None
  /\ (forall k', k' ≠ k ->
        findDeviceById (registered result.2) k'
        = findDeviceById (registered devices) k')
  /\ result.2 `sublist_of` devices.
Proof.
  intros result. unfold result, deleteDevice.
  pose proof (filter_ne_length (fun d => id (device d)) devices k) as Hlen.
  simpl in Hlen.
  assert (Hgone : findDeviceById
            (registered (filter (fun d => id (device d) ≠ k) devices)) k = None).
  { apply findDeviceById_None.
    rewrite (keys_filter_ne (fun d => id (device d))).
    intros [? _]%list_elem_of_filter. done. }
  assert (Hother : forall k', k' ≠ k ->
            findDeviceById (registered (filter (fun d => id (device d) ≠ k) devices)) k'
            = findDeviceById (registered devices) k').
  { intros k' Hk. rewrite !findDeviceById_registered.
    by rewrite (filter_ne_lookup (fun d => id (device d))). }
  destruct (decide (k ∈ (fun d => id (device d)) <$> devices)) as [Hin|Hnot].
  - rewrite bool_decide_eq_false_2 by (by rewrite Hlen; intros ?). simpl.
    split; [intros Hnone%findDeviceById_None; done|].
    split; [done|]. split; [done|]. split; [done|]. apply sublist_filter.
  - rewrite bool_decide_eq_true_2 by (by apply Hlen). simpl.
    split; [done|]. split.
    + intros Hsome. apply findDeviceById_None in Hnot.
      rewrite Hnot in Hsome. by destruct Hsome.
    + split; [by apply findDeviceById_None|]. done.
Qed.


Lemma putDevice_cases devices k body :
  let valid :=
    (updateRelayIndex body = Undefined
     \/ exists relay, updateRelayIndex body = Given relay /\ (0 <= relay)%Z)
    /\ updateBtSensorId body ≠ Mistyped in
  (exists message, putDevice devices k body = (Refused 400 message, devices) /\ ~ valid)
  \/ (valid
      /\ ((k ∉ (fun d => id (device d)) <$> devices)
          /\ putDevice devices k body = (Refused 404 "Device not found", devices)
          \/ exists i old,
               list_find (fun d => id (device d) = k) devices = Some (i, old)
               /\ let updated :=
                    mkDeviceEntry
                      (default (deviceName old) (updateName body))
                      (mkDevice (id (device old))
                         (default (ip (device old)) (updateIp body))
                         (match updateRelayIndex body with
                          | Given relay => Z.to_nat relay
                          | _ => relayIndex (device old)
                          end)
                         (match updateBtSensorId body with
                          | Given b => Some b
                          | Null => None
                          | _ => btSensorId (device old)
                          end)) in
                  putDevice devices k body
                  = (Answered 200 updated, <[i := updated]> devices))).
Proof.
  intros valid. unfold valid, putDevice.
  destruct (updateRelayIndex body) as [| | |relay] eqn:Hr;
    try (left; eexists; split; [reflexivity|];
         intros [[?|(? & ? & _)] _]; congruence).
  - rewrite bool_decide_eq_false_2 by tauto.
    destruct (updateBtSensorId body) as [| | |b] eqn:Hb;
      try (left; eexists; split; [reflexivity|]; intros [_ ?]; congruence).
    all: right; split; [split; [by left | done]|].
    all: destruct (list_find _ devices) as [[i old]|] eqn:Hfind;
      [right; by exists i, old | left; split; [|done]].
    all: by apply (list_find_key_None (fun d => id (device d))).
  - case_bool_decide as Hneg.
    { left. eexists. split; [reflexivity|].
      intros [[?|(r & [= <-] & ?)] _]; [done | lia]. }
    destruct (updateBtSensorId body) as [| | |b] eqn:Hb;
      try (left; eexists; split; [reflexivity|]; intros [_ ?]; congruence).
    all: right; split; [split; [right; exists relay; split; [done | lia] | done]|].
    all: destruct (list_find _ devices) as [[i old]|] eqn:Hfind;
      [right; by exists i, old | left; split; [|done]].
    all: by apply (list_find_key_None (fun d => id (device d))).
Qed.


(** X19. No request to the device registry makes two stored devices share
    an id: if the ids are pairwise distinct, they still are after any
    sequence of POST, PUT and DELETE requests. *)
Theorem device_ids_stay_unique devices (calls : list DeviceCall) :
  NoDup ((fun d => id (device d)) <$> devices) ->
  NoDup ((fun d => id (device d)) <$> deviceRun devices calls).
Proof.
  revert devices. unfold deviceRun.
  induction calls as [|c calls IH]; intros devices Hnd; simpl; [done|].
  apply IH. destruct c as [body|k body|k]; simpl.
  - destruct (postDevice_cases devices body)
      as [(m & -> & _)|(i & n & a & relay & _ & _ & _ & _ & _ & _ & _
                        & [[_ [m ->]]|[Hfresh ->]])]; simpl; try done.
    rewrite fmap_app. apply NoDup_app. split; [done|]. split.
    + intros x Hx ->%list_elem_of_singleton. done.
    + apply NoDup_singleton.
  - destruct (putDevice_cases devices k body)
      as [(m & -> & _)|(_ & [[_ ->]|(i & old & Hfind & ->)])]; simpl; try done.
    apply list_find_Some in Hfind as (Hi & Hold & _).
    by rewrite (keys_insert_same (fun d => id (device d)) devices i old).
  - unfold deleteDevice. case_bool_decide; simpl; [done|].
    rewrite (keys_filter_ne (fun d => id (device d))). by apply NoDup_filter.
Qed.

End DeviceRegistryChanges.



Lemma device_ids_stay_unique_witness :
  NoDup ((fun d => id (device d)) <$>
           deviceRun Extra.entries
             [PostDevice (mkDeviceBody (Some "a") (Some "Again") (Some "10.0.0.9")
                                       (Given 0%Z) Undefined);
              PostDevice (mkDeviceBody (Some "d") (Some "Radiator D") (Some "10.0.0.4")
                                       (Given 1%Z) (Given 7));
              PutDevice "b" (mkDeviceUpdate (Some "Hall") None Undefined Null);
              DeleteDevice "a"]).
Proof.
  apply device_ids_stay_unique.
  apply (bool_decide_unpack _). vm_compute. reflexivity.
Defined.

Example device_registry_requests :
  (fun d => id (device d)) <$>
    deviceRun Extra.entries
      [PostDevice (mkDeviceBody (Some "a") (Some "Again") (Some "10.0.0.9")
                                (Given 0%Z) Undefined);
       PostDevice (mkDeviceBody (Some "d") (Some "Radiator D") (Some "10.0.0.4")
                                (Given 1%Z) (Given 7));
       PutDevice "b" (mkDeviceUpdate (Some "Hall") None Undefined Null);
       DeleteDevice "a"]
  = ["b"; "c"; "d"].
Proof. vm_compute. reflexivity. Qed.


(** ** The room registry *)

Section RoomRegistry.
Context {num : Type} {NUM : JsNumber num}.
Variable defaultHysteresisC : num.
Implicit Types (devices : list DeviceEntry) (rooms : list (RoomEntry num))
  (rid : string) (e : RoomEntry num).

Lemma truthy_Some s t : truthy s = Some t <-> s = Some t /\ t ≠ EmptyString.
Proof.
  unfold truthy. destruct s as [u|]; [|by split; [|intros [? _]]].
  case_bool_decide as Hu.
  - split; [done|]. intros [[= ->] ?]. done.
  - split; [by intros [= ->] | by intros [[= ->] _]].
Qed.

Lemma firstUnknownRadiator_None devices ids :
  firstUnknownRadiator devices ids = None <->
  Forall (fun devId => is_Some (findDeviceById (registered devices) devId)) ids.
Proof.
  unfold firstUnknownRadiator. induction ids as [|i ids IH]; simpl.
  - split; [constructor | done].
  - case_bool_decide as Hi.
    + split; [done|]. intros [Hs _]%Forall_cons. rewrite Hi in Hs. by destruct Hs.
    + rewrite IH. split.
      * intros Hall. constructor; [by apply not_eq_None_Some | done].
      * by intros [_ ?]%Forall_cons.
Qed.

Lemma postThermostatFields_inr devices sensor target hysteresis sid t h :
  postThermostatFields defaultHysteresisC devices sensor target hysteresis
    = inr (sid, t, h) ->
  sensor = Some sid /\ sid ≠ EmptyString /\ target = Some t
  /\ h = default defaultHysteresisC hysteresis
  /\ exists sensorDevice,
       findDeviceById (registered devices) sid = Some sensorDevice
       /\ is_Some (btSensorId sensorDevice).
Proof.
  unfold postThermostatFields.
  destruct (truthy sensor) as [s|] eqn:Hs; [|done].
  destruct target as [t'|]; [|done].
  destruct (findDeviceById (registered devices) s) as [dev|] eqn:Hdev; [|done].
  destruct (btSensorId dev) as [bt|] eqn:Hbt; [|done].
  intros [= -> -> <-]. apply truthy_Some in Hs as [-> ?].
  repeat (split; [done|]). exists dev. split; [done|]. rewrite Hbt. by eexists.
Qed.

Lemma postRoom_Refused rooms devices body code message :
  (postRoom defaultHysteresisC devices rooms body).1 = Refused code message ->
  (postRoom defaultHysteresisC devices rooms body).2 = rooms
  /\ (code = 400 \/ code = 409).
Proof.
  unfold postRoom.
  destruct (truthy (bodyRoomId body)) as [rid|]; [|intros [= <- <-]; auto].
  destruct (truthy (bodyRoomName body)) as [name|]; [|intros [= <- <-]; auto].
  destruct (bodyRadiatorDeviceIds body) as [| | |radiators];
    try (destruct (truthy (bodyControlMode body)); intros [= <- <-]; by auto).
  destruct (truthy (bodyControlMode body)) as [mode|]; [|intros [= <- <-]; auto].
  destruct (negb _); [intros [= <- <-]; auto|].
  destruct (existsb _ rooms); [intros [= <- <-]; auto|].
  destruct (firstUnknownRadiator devices radiators); [intros [= <- <-]; auto|].
  case_bool_decide.
  - destruct (postThermostatFields _ _ _ _ _) as [m|[[sid t] h]];
      [intros [= <- <-]; auto | done].
  - destruct (bodySchedule body); [done | intros [= <- <-]; auto].
Qed.

Lemma postRoom_Answered rooms devices body code e :
  (postRoom defaultHysteresisC devices rooms body).1 = Answered code e ->
  code = 201
  /\ (postRoom defaultHysteresisC devices rooms body).2 = rooms ++ [e]
  /\ truthy (bodyRoomId body) = Some (entryRoomId e)
  /\ truthy (bodyRoomName body) = Some (roomName e)
  /\ bodyRadiatorDeviceIds body = Given (entryRadiatorDeviceIds e)
  /\ truthy (bodyControlMode body) = Some (entryControlMode e)
  /\ (entryRoomId e ∉ entryRoomId <$> rooms)
  /\ wellFormedEntry devices e
  /\ (entryControlMode e = "thermostat" ->
        entryHysteresisC e = Some (default defaultHysteresisC (bodyHysteresisC body))
        /\ entryTargetTempC e = bodyTargetTempC body
        /\ entrySensorDeviceId e = bodySensorDeviceId body)
  /\ (entryControlMode e = "schedule" -> entrySchedule e = bodySchedule body).
Proof.
  unfold postRoom.
  destruct (truthy (bodyRoomId body)) as [rid|]; [|done].
  destruct (truthy (bodyRoomName body)) as [name|]; [|done].
  destruct (bodyRadiatorDeviceIds body) as [| | |radiators];
    try (by destruct (truthy (bodyControlMode body))).
  destruct (truthy (bodyControlMode body)) as [mode|]; [|done].
  destruct (negb _) eqn:Hmode; [done|].
  destruct (existsb _ rooms) eqn:Hex; [done|].
  destruct (firstUnknownRadiator devices radiators) eqn:Hrads; [done|].
  apply firstUnknownRadiator_None in Hrads.
  assert (Hfresh : rid ∉ entryRoomId <$> rooms).
  { rewrite <- (existsb_key entryRoomId). by rewrite Hex. }
  assert ("thermostat" ≠ "schedule") by done.
  case_bool_decide as Ht.
  - destruct (postThermostatFields _ _ _ _ _) as [m|[[sid t] h]] eqn:Hf; [done|].
    apply postThermostatFields_inr in Hf as (Hs & Hne & Htg & -> & dev & Hdev & Hbt).
    intros [= <- <-]. simpl. repeat (split; [done|]). split.
    + split; [done|]. left. repeat (split; [done|]).
      split; [by exists sid, dev|]. done.
    + split; [by rewrite Hs, Htg | congruence].
  - apply negb_false_iff, orb_true_iff in Hmode as [Hm|Hm]; [done|].
    apply bool_decide_eq_true in Hm.
    destruct (bodySchedule body) as [sched|] eqn:Hsched; [|done].
    intros [= <- <-]. simpl. repeat (split; [done|]). split.
    + split; [done|]. right. by repeat (split; [done|]).
    + split; [congruence | done].
Qed.


Lemma putTarget_cases rooms rid target :
  (target = None /\ putTarget rooms rid target = (Refused 400 "Missing targetTempC", rooms))
  \/ exists t, target = Some t
     /\ ((rid ∉ entryRoomId <$> rooms)
         /\ putTarget rooms rid target = (Refused 404 "Room not found", rooms)
         \/ exists i old,
              list_find (fun r => entryRoomId r = rid) rooms = Some (i, old)
              /\ (entryControlMode old ≠ "thermostat"
                  /\ (exists message,
                        putTarget rooms rid target = (Refused 400 message, rooms))
                  \/ entryControlMode old = "thermostat"
                     /\ (let updated :=
                           mkRoomEntry (roomName old) (entryRoomId old)
                             (entryRadiatorDeviceIds old) (entryControlMode old)
                             (entrySensorDeviceId old) (Some t)
                             (entryHysteresisC old) (entrySchedule old) in
                         putTarget rooms rid target
                         = (Answered 200 updated, <[i := updated]> rooms)))).
Proof.
  unfold putTarget. destruct target as [t|]; [right; exists t; split; [done|]|by left].
  destruct (list_find _ rooms) as [[i old]|] eqn:Hfind.
  - right. exists i, old. split; [done|].
    case_bool_decide as Hmode; [left; split; [done | by eexists]|].
    right. split; [|done].
    destruct (decide (entryControlMode old = "thermostat")); [done | by destruct Hmode].
  - left. split; [|done]. by apply (list_find_key_None entryRoomId).
Qed.


Lemma putSchedule_cases rooms rid sched :
  (sched = None
   /\ putSchedule rooms rid sched = (Refused 400 "Invalid schedule provided", rooms))
  \/ exists s, sched = Some s
     /\ ((rid ∉ entryRoomId <$> rooms)
         /\ putSchedule rooms rid sched = (Refused 404 "Room not found", rooms)
         \/ exists i old,
              list_find (fun r => entryRoomId r = rid) rooms = Some (i, old)
              /\ (let updated :=
                    mkRoomEntry (roomName old) (entryRoomId old)
                      (entryRadiatorDeviceIds old) (entryControlMode old)
                      (entrySensorDeviceId old) (entryTargetTempC old)
                      (entryHysteresisC old) (Some s) in
                  putSchedule rooms rid sched
                  = (Answered 200 updated, <[i := updated]> rooms))).
Proof.
  unfold putSchedule. destruct sched as [s|]; [right; exists s; split; [done|]|by left].
  destruct (list_find _ rooms) as [[i old]|] eqn:Hfind.
  - right. by exists i, old.
  - left. split; [|done]. by apply (list_find_key_None entryRoomId).
Qed.


End RoomRegistry.


Section RoomRegistryChanges.
Context {num : Type} {NUM : JsNumber num}.
Variable defaultHysteresisC : num.
Implicit Types (devices : list DeviceEntry) (rooms : list (RoomEntry num))
  (rid : string) (e : RoomEntry num).

Lemma putThermostatFields_inr devices sensor target hysteresis sid t h :
  putThermostatFields defaultHysteresisC devices sensor target hysteresis
    = inr (sid, t, h) ->
  sensor = Some sid /\ sid ≠ EmptyString /\ target = Some t
  /\ h = default defaultHysteresisC hysteresis
  /\ exists sensorDevice,
       findDeviceById (registered devices) sid = Some sensorDevice
       /\ is_Some (btSensorId sensorDevice).
Proof.
  unfold putThermostatFields.
  destruct (truthy sensor) as [s|] eqn:Hs; [|done].
  destruct target as [t'|]; [|done].
  destruct (findDeviceById (registered devices) s) as [dev|] eqn:Hdev; [|done].
  simpl. destruct (btSensorId dev) as [bt|] eqn:Hbt; [|done].
  intros [= -> -> <-]. apply truthy_Some in Hs as [-> ?].
  repeat (split; [done|]). exists dev. split; [done|]. rewrite Hbt. by eexists.
Qed.

Lemma putRoom_Refused devices rooms rid body code message :
  (putRoom defaultHysteresisC devices rooms rid body).1 = Refused code message ->
  (putRoom defaultHysteresisC devices rooms rid body).2 = rooms
  /\ (code = 400 \/ code = 404).
Proof.
  unfold putRoom.
  destruct (truthy (updateRoomName body)); [|intros [= <- <-]; auto].
  destruct (updateRadiatorDeviceIds body) as [radiators|];
    [|destruct (truthy (updateControlMode body)); intros [= <- <-]; by auto].
  destruct (truthy (updateControlMode body)); [|intros [= <- <-]; auto].
  destruct (updateSchedule body); [|intros [= <- <-]; auto].
  destruct (list_find _ rooms) as [[i old]|]; [|intros [= <- <-]; auto].
  destruct (firstUnknownRadiator devices radiators); [intros [= <- <-]; auto|].
  case_bool_decide; [|done].
  destruct (putThermostatFields _ _ _ _ _) as [m|[[sid t] h]];
    [intros [= <- <-]; auto | done].
Qed.

Lemma putRoom_Answered devices rooms rid body code e :
  (putRoom defaultHysteresisC devices rooms rid body).1 = Answered code e ->
  code = 200
  /\ entryRoomId e = rid
  /\ truthy (updateRoomName body) = Some (roomName e)
  /\ updateRadiatorDeviceIds body = Some (entryRadiatorDeviceIds e)
  /\ truthy (updateControlMode body) = Some (entryControlMode e)
  /\ updateSchedule body = entrySchedule e
  /\ is_Some (entrySchedule e)
  /\ Forall (fun devId => is_Some (findDeviceById (registered devices) devId))
            (entryRadiatorDeviceIds e)
  /\ (exists i old,
        list_find (fun r => entryRoomId r = rid) rooms = Some (i, old)
        /\ (putRoom defaultHysteresisC devices rooms rid body).2 = <[i := e]> rooms)
  /\ (entryControlMode e = "thermostat" ->
        entrySensorDeviceId e = updateSensorDeviceId body
        /\ entryTargetTempC e = updateTargetTempC body
        /\ is_Some (entryTargetTempC e)
        /\ entryHysteresisC e
           = Some (default defaultHysteresisC (updateHysteresisC body))
        /\ exists sid sensorDevice,
             entrySensorDeviceId e = Some sid /\ sid ≠ EmptyString
             /\ findDeviceById (registered devices) sid = Some sensorDevice
             /\ is_Some (btSensorId sensorDevice))
  /\ (entryControlMode e ≠ "thermostat" ->
        entrySensorDeviceId e = None /\ entryTargetTempC e = None
        /\ entryHysteresisC e = None).
Proof.
  unfold putRoom.
  destruct (truthy (updateRoomName body)) as [name|]; [|done].
  destruct (updateRadiatorDeviceIds body) as [radiators|];
    [|by destruct (truthy (updateControlMode body))].
  destruct (truthy (updateControlMode body)) as [mode|]; [|done].
  destruct (updateSchedule body) as [sched|]; [|done].
  destruct (list_find _ rooms) as [[i old]|] eqn:Hfind; [|done].
  destruct (firstUnknownRadiator devices radiators) eqn:Hrads; [done|].
  apply firstUnknownRadiator_None in Hrads.
  case_bool_decide as Ht.
  - destruct (putThermostatFields _ _ _ _ _) as [m|[[sid t] h]] eqn:Hf; [done|].
    apply putThermostatFields_inr in Hf as (Hs & Hne & Htg & -> & dev & Hdev & Hbt).
    intros [= <- <-]. simpl. do 6 (split; [done|]). split; [by eexists|].
    split; [done|]. split; [by exists i, old|]. split; [|done].
    intros _. rewrite Hs, Htg. do 2 (split; [done|]). split; [by eexists|].
    split; [done|]. by exists sid, dev.
  - intros [= <- <-]. simpl. do 6 (split; [done|]). split; [by eexists|].
    split; [done|]. split; [by exists i, old|]. split; done.
Qed.


(** X24. DELETE /rooms/:roomId answers 404, changing nothing, exactly when
    no stored room has the id; otherwise it answers 204 and removes every
    entry with that id, the other entries staying in their order. *)
Theorem deleteRoom_contract rooms rid :
  let result := deleteRoom rooms rid in
  ((rid ∉ entryRoomId <$> rooms) ->
     result = (Refused 404 "Room not found", rooms))
  /\ (rid ∈ entryRoomId <$> rooms ->
        result = (Answered 204 tt, filter (fun r => entryRoomId r ≠ rid) rooms))
  /\ (rid ∉ entryRoomId <$> result.2)
  /\ (forall other, other ≠ rid ->
        getRoom result.2 other = getRoom rooms other)
  /\ result.2 `sublist_of` rooms.
Proof.
  intros result. unfold result, deleteRoom.
  pose proof (filter_ne_length entryRoomId rooms rid) as Hlen.
  assert (Hgone : rid ∉ entryRoomId <$> filter (fun r => entryRoomId r ≠ rid) rooms).
  { rewrite (keys_filter_ne entryRoomId). intros [? _]%list_elem_of_filter. done. }
  assert (Hother : forall other, other ≠ rid ->
            getRoom (filter (fun r => entryRoomId r ≠ rid) rooms) other
            = getRoom rooms other).
  { intros other Hne. unfold getRoom.
    by rewrite (filter_ne_lookup entryRoomId). }
  destruct (decide (rid ∈ entryRoomId <$> rooms)) as [Hin|Hnot].
  - rewrite bool_decide_eq_false_2 by (by rewrite Hlen; intros ?). simpl.
    split; [done|]. split; [done|]. split; [done|]. split; [done|].
    apply sublist_filter.
  - rewrite bool_decide_eq_true_2 by (by apply Hlen). simpl.
    split; [done|]. split; [done|]. split; [done|]. done.
Qed.

(** X25. No request to the room registry makes two stored rooms share a
    roomId: if the ids are pairwise distinct, they still are after any
    sequence of POST, PUT (whole room, target, schedule) and DELETE
    requests. *)
Theorem room_ids_stay_unique rooms (calls : list (RoomCall num)) :
  NoDup (entryRoomId <$> rooms) ->
  NoDup (entryRoomId <$> roomRun defaultHysteresisC rooms calls).
Proof.
  revert rooms. unfold roomRun.
  induction calls as [|c calls IH]; intros rooms Hnd; simpl; [done|].
  apply IH. destruct c as [devices body|devices rid body|rid target|rid sched|rid];
    simpl.
  - destruct (postRoom defaultHysteresisC devices rooms body) as [[code e|code m] rooms']
      eqn:Hpost.
    + destruct (postRoom_Answered defaultHysteresisC rooms devices body code e)
        as (_ & Hstore & _ & _ & _ & _ & Hfresh & _); [by rewrite Hpost|].
      rewrite Hpost in Hstore. simpl in *. subst rooms'.
      rewrite fmap_app. apply NoDup_app. split; [done|]. split.
      * intros x Hx ->%list_elem_of_singleton. done.
      * apply NoDup_singleton.
    + destruct (postRoom_Refused defaultHysteresisC rooms devices body code m)
        as [Hsame _]; [by rewrite Hpost|].
      rewrite Hpost in Hsame. simpl in *. by subst.
  - destruct (putRoom defaultHysteresisC devices rooms rid body)
      as [[code e|code m] rooms'] eqn:Hput.
    + destruct (putRoom_Answered devices rooms rid body code e)
        as (_ & Hid & _ & _ & _ & _ & _ & _ & (i & old & Hfind & Hstore) & _);
        [by rewrite Hput|].
      rewrite Hput in Hstore. simpl in *. subst rooms'.
      apply list_find_Some in Hfind as (Hi & Hold & _).
      rewrite (keys_insert_same entryRoomId rooms i old); [done | done | congruence].
    + destruct (putRoom_Refused devices rooms rid body code m) as [Hsame _];
        [by rewrite Hput|].
      rewrite Hput in Hsame. simpl in *. by subst.
  - destruct (putTarget_cases rooms rid target)
      as [[_ ->]|(t & _ & [[_ ->]|(i & old & Hfind
                                   & [(_ & m & ->)|[_ ->]])])]; simpl; try done.
    apply list_find_Some in Hfind as (Hi & Hold & _).
    by rewrite (keys_insert_same entryRoomId rooms i old).
  - destruct (putSchedule_cases rooms rid sched)
      as [[_ ->]|(s & _ & [[_ ->]|(i & old & Hfind & ->)])]; simpl; try done.
    apply list_find_Some in Hfind as (Hi & Hold & _).
    by rewrite (keys_insert_same entryRoomId rooms i old).
  - unfold deleteRoom. case_bool_decide; simpl; [done|].
    rewrite (keys_filter_ne entryRoomId). by apply NoDup_filter.
Qed.

End RoomRegistryChanges.


Lemma room_ids_stay_unique_witness :
  NoDup (entryRoomId <$>
           roomRun 10%Z []
             [PostRoom Extra.entries Extra.studyBody;
              PostRoom Extra.entries Extra.loungeBody;
              PostRoom Extra.entries Extra.studyBody;
              PutRoom Extra.entries "lounge" Extra.manualUpdate;
              PutTarget "study" (Some 215%Z);
              DeleteRoom "study";
              PostRoom Extra.entries Extra.studyBody]).
Proof.
  apply (room_ids_stay_unique 10%Z []). simpl. constructor.
Defined.


(** ** The room registry and the control loop together *)

Section RoomsAndLoop.
Context {num : Type} {NUM : JsNumber num}.
Variable defaultHysteresisC : num.
Implicit Types (entries : list DeviceEntry) (stored : list (RoomEntry num))
  (devices : list Device) (rooms : list (Room num)) (e : RoomEntry num)
  (boosts : gmap string Boost) (cache : gmap string RelayState)
  (env : RoomEnv num).

(** A room without an active slot, or whose mode is neither of the two,
    wants a radiator on exactly when a live boost lists it. *)
Lemma roomDesired_only_boost devices boosts now cache env (room : Room num) R :
  activeSlotOf room (clock env) = None
  \/ (controlMode room ≠ "thermostat" /\ controlMode room ≠ "schedule") ->
  roomDesired devices (pruneBoosts now boosts) cache env room R = on <->
  exists boost, boosts !! roomId room = Some boost /\ (now < until boost)%Z
                /\ R ∈ radiatorIds boost.
Proof.
  intros Hwhy. rewrite <- isRadiatorBoosted_pruned. unfold roomDesired.
  destruct (isRadiatorBoosted (pruneBoosts now boosts !! roomId room) R) eqn:Hb.
  - by rewrite desired_boosted.
  - rewrite desired_not_boosted by done. split; [|done].
    intros [Hin Hmode]. destruct Hwhy as [Hnone|[Ht Hs]].
    + rewrite Hnone in Hin. by apply elem_of_nil in Hin.
    + by destruct Hmode as [[? _]|?].
Qed.



(** X28. When every radiator id of every room is in the device registry the
    loop reads, as the room routes check when a room is stored, a run logs
    no missing device: every planned command whose state differs from the
    cached one leads to a relay call. *)
Theorem registered_radiators_are_never_missing devices rooms w st :
  Forall (fun room => Forall (fun k => is_Some (findDeviceById devices k))
                             (radiatorDeviceIds room)) rooms ->
  (forall k, DeviceNotFound k ∉ (heatingControlLoop devices rooms w st).2)
  /\ (forall k v, JsObject.get (plannedCommands devices rooms w st) k = Some v ->
        lastCommandedRadiatorState st !! k ≠ Some v ->
        exists dev, findDeviceById devices k = Some dev
                    /\ SwitchSet k dev (bool_decide (v = on))
                       ∈ (heatingControlLoop devices rooms w st).2).
Proof.
  intros Hall.
  assert (Hreg : forall k v,
            JsObject.get (plannedCommands devices rooms w st) k = Some v ->
            is_Some (findDeviceById devices k)).
  { intros k v Hk.
    destruct (proj1 (plannedCommands_planned_iff devices rooms w st k))
      as (room & Hroom & Hin); [by rewrite Hk|].
    rewrite Forall_forall in Hall. specialize (Hall room Hroom).
    rewrite Forall_forall in Hall. by apply Hall. }
  split.
  - intros k Hin. apply (elem_of_about k) in Hin; [|done].
    destruct (JsObject.get (plannedCommands devices rooms w st) k) as [v|] eqn:Hk.
    + destruct (Hreg k v Hk) as [dev Hdev].
      destruct (heatingControlLoop_at devices rooms w st k v Hk) as [_ Hev].
      rewrite Hev in Hin. unfold dispatchOne in Hin. rewrite Hdev in Hin.
      case_bool_decide; [|by apply elem_of_nil in Hin].
      destruct (setRelay w dev _).
      * apply list_elem_of_singleton in Hin. discriminate.
      * apply elem_of_cons in Hin as [Hin|Hin]; [discriminate|].
        apply list_elem_of_singleton in Hin. discriminate.
    + destruct (heatingControlLoop_unplanned devices rooms w st k Hk) as [_ Hev].
      rewrite Hev in Hin. by apply elem_of_nil in Hin.
  - intros k v Hk Hdiff. destruct (Hreg k v Hk) as [dev Hdev]. exists dev.
    split; [done|]. apply (elem_of_about k); [done|].
    destruct (heatingControlLoop_at devices rooms w st k v Hk) as [_ Hev].
    rewrite Hev. unfold dispatchOne. rewrite Hdev.
    rewrite (bool_decide_eq_true_2 _ Hdiff).
    destruct (setRelay w dev _); simpl;
      [apply list_elem_of_singleton | apply elem_of_cons; left]; reflexivity.
Qed.


End RoomsAndLoop.



Lemma registered_radiators_are_never_missing_witness :
  (forall k, DeviceNotFound k
             ∉ (heatingControlLoop Sample.devices [Sample.r1; Sample.r2]
                  (Extra.world true) (mkLoopState ∅ ∅)).2)
  /\ (forall k v,
        JsObject.get (plannedCommands Sample.devices [Sample.r1; Sample.r2]
                        (Extra.world true) (mkLoopState ∅ ∅)) k = Some v ->
        lastCommandedRadiatorState (mkLoopState ∅ ∅) !! k ≠ Some v ->
        exists dev, findDeviceById Sample.devices k = Some dev
                    /\ SwitchSet k dev (bool_decide (v = on))
                       ∈ (heatingControlLoop Sample.devices [Sample.r1; Sample.r2]
                            (Extra.world true) (mkLoopState ∅ ∅)).2).
Proof.
  apply (registered_radiators_are_never_missing Sample.devices
           [Sample.r1; Sample.r2] (Extra.world true) (mkLoopState ∅ ∅)).
  repeat constructor; by eexists.
Defined.
